(** * satellite-analysis: the candidate-ranking routine of
      [analyze_spacetrack_data.py]

    The development embeds [angular_separation] and
    [find_smarter_every_days_satellite] and checks the properties the
    specification states about them.

    Numeric model.  Python's [float] and numpy's float64 scalars are
    idealised as the real numbers [R]: rounding and NaN are outside the
    model.  [np.sqrt] and [np.arcsin] are partial on the reals, whereas
    the library functions [sqrt] and [asin] are total; the lemma
    [haversine_a_range] shows that on every input the arguments that occur
    stay inside the domain, so the total functions agree with numpy's on
    all values the routine computes.

    Effects.  The routine runs in a small state-and-exception monad: the
    state holds the OMM records that the elements of [gp_data] refer to
    and standard output; an exception raised by the external library
    propagates, since the routine has no handler.

    skyfield is external to the repository and enters as the class
    [Skyfield]; [Double] is a concrete instance used to run the routine
    on small batches.

    Layout: definitions; facts about the haversine term, the sort and the
    runs of the routine; the claims of the specification; further
    properties of [angular_separation], of the ranking routine, of
    [process_tle_with_skyfield] and of the acquisition script
    [get_spacetrack_data.py]. *)

From Stdlib Require Import String.
From Stdlib Require Import Reals Machin Lra Lia List Bool Arith ZArith.
From Stdlib Require Import Permutation Sorted.
Import ListNotations.

Local Open Scope R_scope.

(** ** [angular_separation] *)

Module Numpy.

(** [np.radians(x)]: degrees to radians. *)
Definition radians (x : R) : R := x * (PI / 180).

(** [np.degrees(x)]: radians to degrees. *)
Definition degrees (x : R) : R := x * (180 / PI).

End Numpy.

(** The value bound to [a] in the body of [angular_separation]:
[[
    lat1, lon1 = np.radians(alt1), np.radians(az1)
    lat2, lon2 = np.radians(alt2), np.radians(az2)
    dlat = lat2 - lat1
    dlon = lon2 - lon1
    a = np.sin(dlat / 2) ** 2 + np.cos(lat1) * np.cos(lat2) * np.sin(dlon / 2) ** 2
]] *)
Definition haversine_a (alt1 az1 alt2 az2 : R) : R :=
  let lat1 := Numpy.radians alt1 in
  let lon1 := Numpy.radians az1 in
  let lat2 := Numpy.radians alt2 in
  let lon2 := Numpy.radians az2 in
  let dlat := lat2 - lat1 in
  let dlon := lon2 - lon1 in
  sin (dlat / 2) ^ 2 + cos lat1 * cos lat2 * sin (dlon / 2) ^ 2.

(** [[
    angular_distance = 2 * np.arcsin(np.sqrt(a))
    return np.degrees(angular_distance)
]] *)
Definition angular_separation (alt1 az1 alt2 az2 : R) : R :=
  let a := haversine_a alt1 az1 alt2 az2 in
  let angular_distance := 2 * asin (sqrt a) in
  Numpy.degrees angular_distance.

(** ** Python values and effects *)

(** Exceptions that reach the routine from the libraries it calls. *)
Inductive exception : Type :=
| KeyError (key : string)
| ValueError (msg : string).

(** The outcome of evaluating a Python expression. *)
Inductive result (A : Type) : Type :=
| Return (a : A)
| Raise (e : exception).
Arguments Return {A} a.
Arguments Raise {A} e.

(** Python's [x < y] and [x > y] on floats, as booleans. *)
Definition Rltb (x y : R) : bool := if Rlt_dec x y then true else false.
Definition Rgtb (x y : R) : bool := Rltb y x.

(** skyfield's [Angle] and [Distance] value objects, reduced to the one
    attribute the routine reads from each. *)
Record Angle : Type := { degrees : R }.
Record Distance : Type := { km : R }.

(** [wgs84.latlon(latitude, longitude)] *)
Record GeographicPosition : Type := { latitude : R; longitude : R }.

(** [ts.utc(year, month, day, hour, minute, second)] *)
Record Time : Type :=
  { year : Z; month : Z; day : Z; hour : Z; minute : Z; second : Z }.

(** The part of skyfield the routine relies on.  It is an external
    library: [fields] is one decoded OMM record (a [dict]), [from_omm]
    stands for [EarthSatellite.from_omm(ts, fields)], which only reads the
    mapping, and [altaz s o t] for [(s - o).at(t).altaz()].  Either call
    may raise. *)
Class Skyfield : Type := {
  fields : Type;
  EarthSatellite : Type;
  from_omm : fields -> result EarthSatellite;
  altaz : EarthSatellite -> GeographicPosition -> Time ->
          result (Angle * Angle * Distance)
}.

(** ** [list.sort(key=...)]

    The builtin is stable and compares keys with [<] only.  It is modelled
    by a stable insertion sort that does the same; on totally ordered keys
    the stable ascending arrangement of a list is unique (lemma
    [stable_sort_unique]), so the model returns the list the builtin
    leaves in place. *)
Section ListSort.

Context {A : Type} (key : A -> R).

Fixpoint insert_by (c : A) (l : list A) : list A :=
  match l with
  | [] => [c]
  | d :: l' =>
      if Rltb (key d) (key c) then d :: insert_by c l' else c :: d :: l'
  end.

Definition list_sort (l : list A) : list A := fold_right insert_by [] l.

(** Ascending by key. *)
Definition key_le (x y : A) : Prop := key x <= key y.

(** The elements whose key is [k]. *)
Definition has_key (k : R) (x : A) : bool :=
  if Req_dec_T (key x) k then true else false.

End ListSort.

(** ** [find_smarter_every_days_satellite] *)

Section Ranking.

Context `{SF : Skyfield}.

(** A reference to a [dict] on the heap. *)
Definition loc : Type := nat.

(** One entry of [candidates]:
    [{"sep": sep, "sat": sat, "alt": alt, "az": az, "distance": distance}]. *)
Record Candidate : Type := {
  sep : R;
  sat : EarthSatellite;
  alt : Angle;
  az : Angle;
  distance : Distance
}.

(** What a [print] call writes; number formatting is not modelled, a
    line carries the value it formats. *)
Inductive line : Type :=
| LineLoaded (n : nat)
| LineSatellite (s : EarthSatellite)
| LineSeparation (x : R)
| LineAltitude (x : R)
| LineAzimuth (x : R)
| LineDistance (x : R)
| LineDashes.

(** The state the routine runs in: the OMM records that the elements of
    [gp_data] refer to, and standard output. *)
Record world : Type := {
  heap : loc -> fields;
  stdout : list line
}.

(** State and exceptions. *)
Definition M (A : Type) : Type := world -> result A * world.

Definition ret {A} (a : A) : M A := fun w => (Return a, w).

Definition bind {A B} (m : M A) (f : A -> M B) : M B :=
  fun w =>
    match m w with
    | (Return a, w') => f a w'
    | (Raise e, w') => (Raise e, w')
    end.

Definition lift {A} (r : result A) : M A := fun w => (r, w).

Definition deref (l : loc) : M fields := fun w => (Return (heap w l), w).

Definition print (ln : line) : M unit :=
  fun w => (Return tt, {| heap := heap w; stdout := stdout w ++ [ln] |}).

Notation "x <- m ;; k" := (bind m (fun x => k))
  (at level 61, m at next level, right associativity).
Notation "m ;;; k" := (bind m (fun _ => k))
  (at level 61, right associativity).

(** [[f(x) for x in xs]]: the first exception ends the comprehension. *)
Fixpoint comprehension {X Y} (f : X -> M Y) (xs : list X) : M (list Y) :=
  match xs with
  | [] => ret []
  | x :: xs' =>
      y <- f x ;;
      ys <- comprehension f xs' ;;
      ret (y :: ys)
  end.

(** [for x in xs: body(x)] for a body run for its effect. *)
Fixpoint for_each {X} (body : X -> M unit) (xs : list X) : M unit :=
  match xs with
  | [] => ret tt
  | x :: xs' => body x ;;; for_each body xs'
  end.

(** The constants of lines 82-93 that the routine uses.  [C3],
    [SECOND_OBJECT] and [FIRST_OBJECT_ALT] are bound there too and never
    read. *)
Definition FIRST_OBJECT : Time :=
  {| year := 2024; month := 4; day := 8;
     hour := 19; minute := 2; second := 31 |}.

Definition JACKSON : GeographicPosition :=
  {| latitude := 37.42902; longitude := -89.64276 |}.

(** [SUN_ALT = 57.0] and [SUN_AZ = 209.2]. *)
Definition SUN_ALT : R := 57.
Definition SUN_AZ : R := 209.2.

(** Line 77:
    [sats = [EarthSatellite.from_omm(ts, fields) for fields in gp_data]] *)
Definition load_sats (gp_data : list loc) : M (list EarthSatellite) :=
  comprehension
    (fun r => fields <- deref r ;; lift (from_omm fields)) gp_data.

(** Lines 97-110: the loop over [sats]; [candidates] is the list built so
    far and [candidates.append] extends it at the end. *)
Fixpoint collect_candidates (sats : list EarthSatellite)
    (candidates : list Candidate) : M (list Candidate) :=
  match sats with
  | [] => ret candidates
  | sat :: sats' =>
      topocentric <- lift (altaz sat JACKSON FIRST_OBJECT) ;;
      let '(alt, az, distance) := topocentric in
      if Rgtb (degrees alt) 0 && Rltb (km distance) 10000 then
        let sep := angular_separation SUN_ALT SUN_AZ
                     (degrees alt) (degrees az) in
        collect_candidates sats'
          (candidates ++ [{| sep := sep; sat := sat; alt := alt;
                             az := az; distance := distance |}])
      else collect_candidates sats' candidates
  end.

(** Lines 115-120: the six [print] calls for one candidate. *)
Definition print_candidate (c : Candidate) : M unit :=
  print (LineSatellite (sat c)) ;;;
  print (LineSeparation (sep c)) ;;;
  print (LineAltitude (degrees (alt c))) ;;;
  print (LineAzimuth (degrees (az c))) ;;;
  print (LineDistance (km (distance c))) ;;;
  print LineDashes.

(** The routine.  In Python it returns [None]; what it reports is the
    slice [candidates[:5]] its last loop prints, and the model returns
    that slice as its value besides printing it.  [candidates.sort] works
    in place on the local list. *)
Definition find_smarter_every_days_satellite (gp_data : list loc)
    : M (list Candidate) :=
  sats <- load_sats gp_data ;;
  print (LineLoaded (length sats)) ;;;
  candidates <- collect_candidates sats [] ;;
  let candidates := list_sort sep candidates in
  let top := firstn 5 candidates in
  for_each print_candidate top ;;;
  ret top.

End Ranking.

(** ** Views of the routine used to state its properties *)

Section RankingViews.

Context `{SF : Skyfield}.

(** What one satellite adds to [candidates] in the loop of lines 97-110. *)
Definition selected (s : EarthSatellite) : list Candidate :=
  match altaz s JACKSON FIRST_OBJECT with
  | Return (alt, az, distance) =>
      if Rgtb (degrees alt) 0 && Rltb (km distance) 10000 then
        [{| sep := angular_separation SUN_ALT SUN_AZ
                     (degrees alt) (degrees az);
            sat := s; alt := alt; az := az; distance := distance |}]
      else []
  | Raise _ => []
  end.

(** What the record behind reference [l] adds to [candidates]. *)
Definition candidates_at (w : world) (l : loc) : list Candidate :=
  match from_omm (heap w l) with
  | Return s => selected s
  | Raise _ => []
  end.

(** [from_omm] builds [s] from the record behind [l]. *)
Definition constructs (w : world) (l : loc) (s : EarthSatellite) : Prop :=
  from_omm (heap w l) = Return s.

(** [altaz] answers for [s] at the fixed place and instant. *)
Definition observed (s : EarthSatellite) : Prop :=
  exists topocentric, altaz s JACKSON FIRST_OBJECT = Return topocentric.

(** The record behind [l] yields a satellite model, and the model a
    topocentric observation. *)
Definition evaluates (w : world) (l : loc) : Prop :=
  exists s topocentric,
    from_omm (heap w l) = Return s /\
    altaz s JACKSON FIRST_OBJECT = Return topocentric.

(** The record behind [l] fails to construct or fails to evaluate. *)
Definition fails (w : world) (l : loc) : Prop :=
  (exists e, from_omm (heap w l) = Raise e) \/
  (exists s e, from_omm (heap w l) = Return s /\
               altaz s JACKSON FIRST_OBJECT = Raise e).

(** The lines [print_candidate] writes. *)
Definition report (c : Candidate) : list line :=
  [LineSatellite (sat c); LineSeparation (sep c);
   LineAltitude (degrees (alt c)); LineAzimuth (degrees (az c));
   LineDistance (km (distance c)); LineDashes].

(** The world after [lines] have been printed. *)
Definition printed (w : world) (lines : list line) : world :=
  {| heap := heap w; stdout := stdout w ++ lines |}.

End RankingViews.

(** ** Relative order of two elements of a list *)

(** [before x y l]: some occurrence of [x] in [l] precedes some occurrence
    of [y]. *)
Definition before {A : Type} (x y : A) (l : list A) : Prop :=
  exists l1 l2 l3, l = l1 ++ x :: l2 ++ y :: l3.

(** ** A test double for skyfield

    A stand-in for the external library, used to run the routine on
    concrete batches: a record is an association list of OMM keys, a
    satellite is known by its name, and a small table gives each named
    object its position in the observer's sky. *)

Module Double.

Definition omm : Type := list (string * string).

Fixpoint get (k : string) (d : omm) : option string :=
  match d with
  | [] => None
  | (k', v) :: d' => if String.eqb k k' then Some v else get k d'
  end.

Record satellite : Type := { name : string }.

(** Raises [KeyError] on a record without an object name. *)
Definition construct (d : omm) : result satellite :=
  match get "OBJECT_NAME" d with
  | Some n => Return {| name := n |}
  | None => Raise (KeyError "OBJECT_NAME")
  end.

Definition position (a z d : R) : Angle * Angle * Distance :=
  ({| degrees := a |}, {| degrees := z |}, {| km := d |}).

Definition sky (s : satellite) (_ : GeographicPosition) (_ : Time)
    : result (Angle * Angle * Distance) :=
  if String.eqb (name s) "SUNWARD" then Return (position 57 209.2 400)
  else if String.eqb (name s) "TWIN" then Return (position 57 209.2 800)
  else if String.eqb (name s) "NEARBY" then Return (position 55 207 500)
  else if String.eqb (name s) "BELOW" then Return (position (-5) 209.2 400)
  else if String.eqb (name s) "FAR" then Return (position 10 100 10500)
  else Raise (ValueError "no ephemeris").

#[export] Instance skyfield : Skyfield :=
  {| fields := omm; EarthSatellite := satellite;
     from_omm := construct; altaz := sky |}.

(** The satellite model of the object named [n]. *)
Definition model (n : string) : EarthSatellite := {| name := n |}.

Definition record (n : string) : omm :=
  [("OBJECT_NAME"%string, n); ("NORAD_CAT_ID"%string, "0"%string)].

Definition malformed : omm := [("NORAD_CAT_ID"%string, "0"%string)].

(** The records on the heap, by address. *)
Definition shelf : list omm :=
  [record "SUNWARD"; record "TWIN"; record "NEARBY"; record "BELOW";
   record "FAR"; malformed].

Definition w0 : world :=
  {| heap := fun l => nth l shelf malformed; stdout := [] |}.

Definition candidate (n : string) (a z d : R) : Candidate :=
  {| sep := angular_separation SUN_ALT SUN_AZ a z;
     sat := model n;
     alt := {| degrees := a |};
     az := {| degrees := z |};
     distance := {| km := d |} |}.

Definition sunward : Candidate := candidate "SUNWARD" 57 209.2 400.
Definition twin : Candidate := candidate "TWIN" 57 209.2 800.
Definition nearby : Candidate := candidate "NEARBY" 55 207 500.

End Double.

(** ** [process_tle_with_skyfield]

    The other routine of [analyze_spacetrack_data.py].  What it does to
    an element of [sat_data] and to the objects it gets back is skyfield's
    or the element's own business; every such step is a method of the
    class [SatData] and may raise.  [ts_now] is the instant [ts.now()]
    reads off the clock when the routine starts. *)

Module Tle.

Class SatData : Type := {
  sat : Type;
  value : Type;
  instant : Type;
  geocentric : Type;
  subpoint : Type;
  ts_now : instant;
  (** [sat.at(t)] *)
  at_time : sat -> instant -> result geocentric;
  (** [geocentric.subpoint()] *)
  subpoint_of : geocentric -> result subpoint;
  (** [sat[key]] *)
  getitem : sat -> string -> result value;
  (** [sat.get(key, default)] *)
  get : sat -> string -> string -> result value;
  (** [subpoint.latitude.degrees], [subpoint.longitude.degrees] and
      [subpoint.elevation.kilometers] *)
  latitude_degrees : subpoint -> result R;
  longitude_degrees : subpoint -> result R;
  elevation_kilometers : subpoint -> result R
}.

Section Process.

Context `{SD : SatData}.

(** The dict [satellite_info]. *)
Record satellite_info : Type := {
  name : value;
  norad_id : value;
  epoch : value;
  latitude : R;
  longitude : R;
  elevation_km : R
}.

(** What a [print] call writes. *)
Inductive line : Type :=
| Processing
| ErrorProcessing (object_name : value) (e : exception).

Definition and_then {A B} (r : result A) (f : A -> result B) : result B :=
  match r with
  | Return a => f a
  | Raise e => Raise e
  end.

Notation "x <- r ;; k" := (and_then r (fun x => k))
  (at level 61, r at next level, right associativity).

(** Lines 27-41: the body of the [try] statement up to the dict; the
    entries of the dict are evaluated in the order written. *)
Definition try_body (s : sat) : result satellite_info :=
  geocentric <- at_time s ts_now ;;
  subpoint <- subpoint_of geocentric ;;
  name <- getitem s "OBJECT_NAME" ;;
  norad_id <- getitem s "NORAD_CAT_ID" ;;
  epoch <- getitem s "EPOCH" ;;
  latitude <- latitude_degrees subpoint ;;
  longitude <- longitude_degrees subpoint ;;
  elevation_km <- elevation_kilometers subpoint ;;
  Return {| name := name; norad_id := norad_id; epoch := epoch;
            latitude := latitude; longitude := longitude;
            elevation_km := elevation_km |}.

(** Lines 24-49: the loop, with the list built so far and standard
    output passed along.  [except Exception] catches whatever the body
    raises; an exception raised inside the handler, by [sat.get], leaves
    the routine. *)
Fixpoint for_each_sat (sat_data : list sat)
    (processed_satellites : list satellite_info) (out : list line)
    : result (list satellite_info) * list line :=
  match sat_data with
  | [] => (Return processed_satellites, out)
  | s :: sat_data' =>
      match try_body s with
      | Return satellite_info =>
          for_each_sat sat_data'
            (processed_satellites ++ [satellite_info]) out
      | Raise e =>
          match get s "OBJECT_NAME" "Unknown" with
          | Return object_name =>
              for_each_sat sat_data' processed_satellites
                (out ++ [ErrorProcessing object_name e])
          | Raise e' => (Raise e', out)
          end
      end
  end.

Definition process_tle_with_skyfield (sat_data : list sat)
    (out : list line) : result (list satellite_info) * list line :=
  for_each_sat sat_data [] (out ++ [Processing]).

(** What one element contributes to the returned list and to standard
    output when its handler does not raise. *)
Definition info_of (s : sat) : list satellite_info :=
  match try_body s with
  | Return satellite_info => [satellite_info]
  | Raise _ => []
  end.

Definition error_of (s : sat) : list line :=
  match try_body s, get s "OBJECT_NAME" "Unknown" with
  | Raise e, Return object_name => [ErrorProcessing object_name e]
  | _, _ => []
  end.

(** The element fails in the [try] body and again in the handler. *)
Definition handler_raises (s : sat) (e' : exception) : Prop :=
  (exists e, try_body s = Raise e) /\
  get s "OBJECT_NAME" "Unknown" = Raise e'.

(** The element is dealt with: its body succeeds, or its handler does. *)
Definition handled (s : sat) : Prop :=
  (exists i, try_body s = Return i) \/
  (exists n, get s "OBJECT_NAME" "Unknown" = Return n).

End Process.

End Tle.

(** ** [get_spacetrack_data.py]

    The acquisition script.  Everything outside the process (the remote
    service with the session's cookies, the environment variables, the
    local file system) is the state [outside] of the class [Requests],
    reached only through the calls the script makes; each call that goes
    out is recorded in a log.  Assertions are enabled, as they are unless
    Python runs with [-O]. *)

Module SpaceTrack.

Import Stdlib.Strings.Ascii.

(** The exceptions the script can meet.  [RequestException] stands for
    [requests.RequestException] and all its subclasses, the ones the two
    [except] clauses catch. *)
Inductive error : Type :=
| AssertionError (msg : string)
| RequestException (msg : string)
| TypeError
| OtherError (msg : string).

Inductive outcome (A : Type) : Type :=
| Done (a : A)
| Raised (e : error).
Arguments Done {A} a.
Arguments Raised {A} e.

(** A decoded JSON value; JSON [null] is Python's [None]. *)
#[local] Set Warnings "-register-all".
Inductive json : Type :=
| JNull
| JBool (b : bool)
| JNumber (x : R)
| JString (s : string)
| JArray (items : list json)
| JObject (members : list (string * json)).

(** [len(data)] on a decoded JSON value: defined on strings, lists and
    dicts, a [TypeError] on [None], booleans and numbers. *)
Definition len (data : json) : outcome nat :=
  match data with
  | JString s => Done (String.length s)
  | JArray items => Done (List.length items)
  | JObject members => Done (List.length members)
  | JNull | JBool _ | JNumber _ => Raised TypeError
  end.

(** The object [requests.Session()] returns; its cookies are part of
    [outside]. *)
Inductive Session : Type := TheSession.

Class Requests : Type := {
  outside : Type;
  Response : Type;
  (** [load_dotenv()] *)
  load_dotenv : outside -> outside;
  (** [os.getenv(name)] *)
  getenv : string -> outside -> option string;
  (** [session.post(url, data=form)] *)
  session_post : string -> list (string * string) -> outside ->
                 outcome Response * outside;
  (** [session.get(url)] *)
  session_get : string -> outside -> outcome Response * outside;
  (** [response.raise_for_status()] *)
  raise_for_status : Response -> outcome unit;
  (** [response.json()] *)
  response_json : Response -> outcome json;
  (** [with open(name, "w") as f: json.dump(data, f)] *)
  dump_to_file : string -> json -> outside -> outcome unit * outside
}.

Definition BASE_URL : string := "https://www.space-track.org".
Definition LOGIN_URL : string := BASE_URL ++ "/ajaxauth/login".
Definition QUERY_URL : string := BASE_URL ++ "/basicspacedata/query".

(** Lines 69-70: the query string and the URL built from the search
    parameters, a [dict] of strings in insertion order. *)
Definition query_params (search_parameters : list (string * string))
    : string :=
  String.concat "/"
    (map (fun '(k, v) => k ++ "/" ++ v) search_parameters)%string.

Definition full_query_url (search_parameters : list (string * string))
    : string :=
  (QUERY_URL ++ "/" ++ query_params search_parameters
   ++ "/format/json")%string.




Section Script.

Context `{RQ : Requests}.

(** A call that leaves the process. *)
Inductive call : Type :=
| Post (url : string) (form : list (string * string))
| Get (url : string)
| Dump (name : string) (data : json).

(** What a [print] call writes. *)
Inductive line : Type :=
| Text (s : string)
| ErrorLoggingIn (e : string)
| ErrorRetrieving (e : string)
| ReceivedLength (n : nat).

Record world : Type := {
  out_there : outside;
  calls : list call;
  stdout : list line
}.

Definition IO (A : Type) : Type := world -> outcome A * world.

Definition ret {A} (a : A) : IO A := fun w => (Done a, w).

Definition raise {A} (e : error) : IO A := fun w => (Raised e, w).

Definition bind {A B} (m : IO A) (f : A -> IO B) : IO B :=
  fun w =>
    match m w with
    | (Done a, w') => f a w'
    | (Raised e, w') => (Raised e, w')
    end.

Definition lift {A} (r : outcome A) : IO A := fun w => (r, w).

(** [try: body except requests.RequestException as e: handler(e)] *)
Definition try_except {A} (body : IO A) (handler : string -> IO A) : IO A :=
  fun w =>
    match body w with
    | (Raised (RequestException e), w') => handler e w'
    | other => other
    end.

Definition print (ln : line) : IO unit :=
  fun w => (Done tt, {| out_there := out_there w; calls := calls w;
                        stdout := stdout w ++ [ln] |}).

(** A call to the outside: it is logged, then answered. *)
Definition outward {A} (c : call)
    (f : outside -> outcome A * outside) : IO A :=
  fun w =>
    let (r, o) := f (out_there w) in
    (r, {| out_there := o; calls := calls w ++ [c]; stdout := stdout w |}).

Definition py_load_dotenv : IO unit :=
  fun w => (Done tt, {| out_there := load_dotenv (out_there w);
                        calls := calls w; stdout := stdout w |}).

Definition os_getenv (name : string) : IO (option string) :=
  fun w => (Done (getenv name (out_there w)), w).

Notation "x <- m ;; k" := (bind m (fun x => k))
  (at level 61, m at next level, right associativity).
Notation "m ;;; k" := (bind m (fun _ => k))
  (at level 61, right associativity).

(** Lines 13-47.  [os.getenv] hands over a [str] or [None].  The [try]
    statement yields [true] when its handler has run, which in the
    source is [return None]. *)
Definition authenticate_space_track (username password : option string)
    : IO (option Session) :=
  print (Text "Authenticating with space-track.org.") ;;;
  match username with
  | None => raise (AssertionError "Username is not properly defined")
  | Some username =>
      match password with
      | None => raise (AssertionError "Password is not properly defined")
      | Some password =>
          let session := TheSession in
          let login_data :=
            [("identity", username); ("password", password)]%string in
          returned <-
            try_except
              (login_response <-
                 outward (Post LOGIN_URL login_data)
                   (session_post LOGIN_URL login_data) ;;
               lift (raise_for_status login_response) ;;;
               ret false)
              (fun e => print (ErrorLoggingIn e) ;;; ret true) ;;
          if returned : bool then ret None
          else
            print (Text "Successfully authenticated.") ;;;
            ret (Some session)
      end
  end.

(** Lines 50-83.  The function returns the decoded JSON, or [None]. *)
Definition get_space_track_data (session : option Session)
    (search_parameters : list (string * string)) : IO json :=
  print (Text "Retrieving space-track.org data.") ;;;
  match session with
  | None => raise (AssertionError "")
  | Some _ =>
      if Nat.eqb (List.length search_parameters) 0 then
        raise (AssertionError "")
      else
        try_except
          (let url := full_query_url search_parameters in
           print (Text ("Getting " ++ url ++ ".")) ;;;
           response <- outward (Get url) (session_get url) ;;
           lift (raise_for_status response) ;;;
           data <- lift (response_json response) ;;
           n <- lift (len data) ;;
           print (ReceivedLength n) ;;;
           lift (response_json response))
          (fun e => print (ErrorRetrieving e) ;;; ret JNull)
  end.

Definition search_params : list (string * string) :=
  [("class", "gp_history");
   ("EPOCH", "2024-04-08--2024-04-09");
   ("orderBy", "norad_cat_id,EPOCH");
   ("distinct", "NORAD_CAT_ID")]%string.

(** Lines 86-114. *)
Definition main : IO unit :=
  py_load_dotenv ;;;
  username <- os_getenv "SPACETRACK_USERNAME" ;;
  password <- os_getenv "SPACETRACK_PASSWORD" ;;
  session <- authenticate_space_track username password ;;
  gp_data <- get_space_track_data session search_params ;;
  match gp_data with
  | JNull => print (Text "Data requet failed. Please try again.")
  | _ =>
      outward (Dump "satellite_data.json" gp_data)
        (dump_to_file "satellite_data.json" gp_data)
  end.

End Script.

(** *** Views of the outside used to state the script's properties *)

Section ScriptViews.

Context `{RQ : Requests}.

(** The form [authenticate_space_track] posts. *)
Definition login_form (username password : string)
    : list (string * string) :=
  [("identity"%string, username); ("password"%string, password)].

(** The login request is refused: [session.post] or [raise_for_status]
    raises a [RequestException]. *)
Definition login_refused (username password : string) (o o1 : outside)
    (e : string) : Prop :=
  session_post LOGIN_URL (login_form username password) o
  = (Raised (RequestException e), o1) \/
  exists r,
    session_post LOGIN_URL (login_form username password) o = (Done r, o1)
    /\ raise_for_status r = Raised (RequestException e).

(** The login request goes through. *)
Definition login_accepted (username password : string) (o o1 : outside)
    : Prop :=
  exists r,
    session_post LOGIN_URL (login_form username password) o = (Done r, o1)
    /\ raise_for_status r = Done tt.

(** The query is refused: [session.get], [raise_for_status] or
    [response.json] raises a [RequestException]. *)
Definition query_refused (url : string) (o o1 : outside) (e : string)
    : Prop :=
  session_get url o = (Raised (RequestException e), o1) \/
  (exists r,
      session_get url o = (Done r, o1) /\
      raise_for_status r = Raised (RequestException e)) \/
  (exists r,
      session_get url o = (Done r, o1) /\
      raise_for_status r = Done tt /\
      response_json r = Raised (RequestException e)).

(** The query is answered with JSON that decodes to [data]. *)
Definition query_answered (url : string) (o o1 : outside) (data : json)
    : Prop :=
  exists r,
    session_get url o = (Done r, o1) /\
    raise_for_status r = Done tt /\
    response_json r = Done data.

(** The credentials [main] reads once [load_dotenv] has run. *)
Definition credentials (w : world) : option string * option string :=
  (getenv "SPACETRACK_USERNAME" (load_dotenv (out_there w)),
   getenv "SPACETRACK_PASSWORD" (load_dotenv (out_there w))).

(** The world after the outside has moved to [o], the calls [cs] have
    gone out and the lines [ls] have been printed. *)
Definition after (w : world) (o : outside) (cs : list call)
    (ls : list line) : world :=
  {| out_there := o; calls := calls w ++ cs; stdout := stdout w ++ ls |}.

End ScriptViews.

End SpaceTrack.

(** ** Test doubles for the acquisition script and for
       [process_tle_with_skyfield]

    [Stub] is a remote service that answers the login and the query with
    fixed status codes (0 stands for a connection that fails), [TleStub]
    a kind of element for [sat_data], and [Lost] a heap with one more
    record, of an object the sky table of [Double] does not know. *)

Module Stub.

Import SpaceTrack.

Record remote : Type := {
  environ : list (string * string);
  login_status : nat;
  query_status : nat;
  catalogue : json;
  files : list (string * json)
}.

Record reply : Type := { status : nat; body : json }.

Definition answer (code : nat) (content : json) (o : remote)
    : outcome reply * remote :=
  if Nat.eqb code 0 then (Raised (RequestException "connection refused"), o)
  else (Done {| status := code; body := content |}, o).

Definition check (r : reply) : outcome unit :=
  if Nat.ltb (status r) 400 then Done tt
  else Raised (RequestException "HTTP error").

Definition save (name : string) (data : json) (o : remote)
    : outcome unit * remote :=
  (Done tt,
   {| environ := environ o; login_status := login_status o;
      query_status := query_status o; catalogue := catalogue o;
      files := (name, data) :: files o |}).

#[export] Instance service : Requests :=
  {| outside := remote; Response := reply;
     load_dotenv := fun o => o;
     getenv := fun name o => Double.get name (environ o);
     session_post := fun _ _ o => answer (login_status o) JNull o;
     session_get := fun _ o => answer (query_status o) (catalogue o) o;
     raise_for_status := check;
     response_json := fun r => Done (body r);
     dump_to_file := save |}.

Definition account : list (string * string) :=
  [("SPACETRACK_USERNAME"%string, "observer"%string);
   ("SPACETRACK_PASSWORD"%string, "secret"%string)].

Definition service_with (env : list (string * string))
    (login query : nat) (content : json) : remote :=
  {| environ := env; login_status := login; query_status := query;
     catalogue := content; files := [] |}.

(** The script starts with nothing sent and nothing printed. *)
Definition start (o : remote) : world :=
  {| out_there := o; calls := []; stdout := [] |}.

Definition one_record : json :=
  JArray [JObject [("OBJECT_NAME"%string, JString "NEARBY")]].

End Stub.

Module TleStub.

Import Tle.

Record object : Type := {
  entries : Double.omm;
  propagates : bool;
  is_mapping : bool
}.

Definition item (s : object) (key : string) : result string :=
  match Double.get key (entries s) with
  | Some v => Return v
  | None => Raise (KeyError key)
  end.

Definition item_or (s : object) (key default : string) : result string :=
  if is_mapping s then
    Return match Double.get key (entries s) with
           | Some v => v
           | None => default
           end
  else Raise (ValueError "no attribute get").

#[export] Instance elements : SatData :=
  {| sat := object; value := string; instant := Time;
     geocentric := unit; subpoint := unit;
     ts_now := FIRST_OBJECT;
     at_time := fun s _ =>
       if propagates s then Return tt
       else Raise (ValueError "propagation failed");
     subpoint_of := fun _ => Return tt;
     getitem := item;
     get := item_or;
     latitude_degrees := fun _ => Return 0;
     longitude_degrees := fun _ => Return 0;
     elevation_kilometers := fun _ => Return 400 |}.

Definition catalogued : Double.omm :=
  [("OBJECT_NAME"%string, "NEARBY"%string);
   ("NORAD_CAT_ID"%string, "0"%string);
   ("EPOCH"%string, "2024-04-08"%string)].

Definition sound : sat :=
  {| entries := catalogued; propagates := true; is_mapping := true |}.

Definition decayed : sat :=
  {| entries := catalogued; propagates := false; is_mapping := true |}.

Definition opaque : sat :=
  {| entries := catalogued; propagates := false; is_mapping := false |}.

End TleStub.

Module Lost.

Import Double.

Definition w_lost : world :=
  {| heap := fun l => nth l (shelf ++ [record "LOST"]) malformed;
     stdout := [] |}.

End Lost.

(** ** Facts about the haversine term *)

Section Haversine.

Lemma sin_half_sqr (x : R) : sin (x / 2) ^ 2 = (1 - cos x) / 2.
Proof.
  replace x with (2 * (x / 2)) at 2 by field.
  rewrite cos_2a_sin. simpl. field.
Qed.

(** The haversine term is half of one minus the dot product of the two
    unit vectors. *)
Lemma haversine_dot (p q l : R) :
  sin ((q - p) / 2) ^ 2 + cos p * cos q * sin (l / 2) ^ 2
  = (1 - (sin p * sin q + cos p * cos q * cos l)) / 2.
Proof.
  rewrite !sin_half_sqr, cos_minus. field.
Qed.

Lemma dot_bounded (s1 c1 s2 c2 k : R) :
  s1 * s1 + c1 * c1 = 1 -> s2 * s2 + c2 * c2 = 1 -> -1 <= k <= 1 ->
  -1 <= s1 * s2 + c1 * c2 * k <= 1.
Proof.
  intros H1 H2 [Hk1 Hk2].
  assert (Hm : 0 <= (c1 - k * c2) ^ 2 + (1 - k * k) * (c2 * c2)).
  { apply Rplus_le_le_0_compat; [apply pow2_ge_0 |].
    apply Rmult_le_pos; nra. }
  assert (Hp : 0 <= (c1 + k * c2) ^ 2 + (1 - k * k) * (c2 * c2)).
  { apply Rplus_le_le_0_compat; [apply pow2_ge_0 |].
    apply Rmult_le_pos; nra. }
  pose proof (pow2_ge_0 (s1 - s2)) as Hs.
  pose proof (pow2_ge_0 (s1 + s2)) as Ht.
  simpl in Hm, Hp, Hs, Ht. split; nra.
Qed.

(** The arguments of [np.sqrt] and [np.arcsin] are always in range. *)
Lemma haversine_a_range (alt1 az1 alt2 az2 : R) :
  0 <= haversine_a alt1 az1 alt2 az2 <= 1.
Proof.
  unfold haversine_a. cbv zeta. rewrite haversine_dot.
  set (p := Numpy.radians alt1). set (q := Numpy.radians alt2).
  set (l := Numpy.radians az2 - Numpy.radians az1).
  pose proof (dot_bounded (sin p) (cos p) (sin q) (cos q) (cos l)) as H.
  pose proof (sin2_cos2 p) as Hp. pose proof (sin2_cos2 q) as Hq.
  unfold Rsqr in Hp, Hq.
  specialize (H Hp Hq (COS_bound l)). lra.
Qed.

Lemma sqrt_haversine_range (alt1 az1 alt2 az2 : R) :
  0 <= sqrt (haversine_a alt1 az1 alt2 az2) <= 1.
Proof.
  destruct (haversine_a_range alt1 az1 alt2 az2) as [H0 H1]. split.
  - apply sqrt_pos.
  - rewrite <- sqrt_1. now apply sqrt_le_1_alt.
Qed.

Lemma asin_nonneg (x : R) : 0 <= x -> 0 <= asin x.
Proof.
  intros Hx. destruct (Rle_dec 1 x) as [H1 | H1].
  - unfold asin. destruct (Rle_dec x (-1)); [lra |].
    destruct (Rle_dec 1 x); [| lra]. pose proof PI_RGT_0. lra.
  - destruct (Rle_lt_dec 0 (asin x)) as [Hge | Hlt]; [assumption |].
    pose proof (asin_bound x) as [Hlo _]. pose proof PI_RGT_0 as Hpi.
    assert (Hs : sin (asin x) < 0) by (apply sin_lt_0_var; lra).
    rewrite sin_asin in Hs; lra.
Qed.

Lemma haversine_a_sym (alt1 az1 alt2 az2 : R) :
  haversine_a alt1 az1 alt2 az2 = haversine_a alt2 az2 alt1 az1.
Proof.
  unfold haversine_a. cbv zeta.
  set (p := Numpy.radians alt1). set (q := Numpy.radians alt2).
  set (u := Numpy.radians az1). set (v := Numpy.radians az2).
  replace ((p - q) / 2) with (- ((q - p) / 2)) by field.
  replace ((u - v) / 2) with (- ((v - u) / 2)) by field.
  rewrite !sin_neg. simpl. ring.
Qed.

Lemma angular_separation_range (alt1 az1 alt2 az2 : R) :
  0 <= angular_separation alt1 az1 alt2 az2 <= 180.
Proof.
  unfold angular_separation, Numpy.degrees. cbv zeta.
  set (x := sqrt (haversine_a alt1 az1 alt2 az2)).
  pose proof (sqrt_haversine_range alt1 az1 alt2 az2) as [Hx0 Hx1].
  fold x in Hx0, Hx1.
  pose proof (asin_nonneg x Hx0) as Ha0.
  pose proof (asin_bound x) as [_ Ha1].
  pose proof PI_RGT_0 as Hpi.
  assert (Hinv : 0 < / PI) by now apply Rinv_0_lt_compat.
  unfold Rdiv. split.
  - apply Rmult_le_pos; [lra |]. apply Rmult_le_pos; lra.
  - replace 180 with (PI * (180 * / PI)) at 2 by (field; lra).
    apply Rmult_le_compat_r; [apply Rmult_le_pos; lra | lra].
Qed.

Lemma coincident_a (alt0 az0 : R) : haversine_a alt0 az0 alt0 az0 = 0.
Proof.
  unfold haversine_a. cbv zeta.
  replace ((Numpy.radians alt0 - Numpy.radians alt0) / 2) with 0 by field.
  replace ((Numpy.radians az0 - Numpy.radians az0) / 2) with 0 by field.
  rewrite sin_0. ring.
Qed.

Lemma coincident_separation (alt0 az0 : R) :
  angular_separation alt0 az0 alt0 az0 = 0.
Proof.
  unfold angular_separation, Numpy.degrees. cbv zeta.
  rewrite coincident_a, sqrt_0, asin_0. ring.
Qed.

End Haversine.

(** ** Numeric enclosures for the worked scenario *)

Section Enclosures.

Lemma PI_enclosure : 3.14159 < PI < 3.1416.
Proof.
  pose proof (PI_2_3_7_ineq 3) as [Hlo Hhi].
  unfold sum_f_R0, tg_alt, PI_2_3_7_tg, Ratan_seq in Hlo, Hhi.
  simpl in Hlo, Hhi. split; lra.
Qed.

(** One degree, in radians. *)
Lemma one_degree_enclosure : 0.0174532 < PI / 180 < 0.0174534.
Proof. pose proof PI_enclosure. lra. Qed.

Lemma sin_cubic_lower (x : R) : 0 <= x <= PI -> x - x ^ 3 / 6 <= sin x.
Proof.
  intros [H0 H1]. pose proof (sin_bound x 0 H0 H1) as [Hlo _].
  unfold sin_approx, sin_term in Hlo. simpl in Hlo. lra.
Qed.

Lemma sin_linear_upper (x : R) : 0 <= x -> sin x <= x.
Proof.
  intros [H | <-]; [left; now apply sin_lt_x | rewrite sin_0; lra].
Qed.

Lemma INR_fact_2 : INR (fact 2) = 2.
Proof. rewrite INR_IZR_INZ. reflexivity. Qed.

Lemma INR_fact_4 : INR (fact 4) = 24.
Proof. rewrite INR_IZR_INZ. reflexivity. Qed.

Lemma INR_fact_6 : INR (fact 6) = 720.
Proof. rewrite INR_IZR_INZ. reflexivity. Qed.

Lemma cos_approx_2 (x : R) :
  cos_approx x 2 = 1 - x ^ 2 / 2 + x ^ 4 / 24.
Proof.
  unfold cos_approx, cos_term. cbn [sum_f_R0].
  change (2 * 0)%nat with 0%nat. change (2 * 1)%nat with 2%nat.
  change (2 * 2)%nat with 4%nat.
  rewrite INR_fact_2, INR_fact_4.
  change (fact 0) with 1%nat. change (INR 1) with 1. field.
Qed.

Lemma cos_approx_3 (x : R) :
  cos_approx x 3 = 1 - x ^ 2 / 2 + x ^ 4 / 24 - x ^ 6 / 720.
Proof.
  change (cos_approx x 3) with (cos_approx x 2 + cos_term x 3).
  rewrite cos_approx_2. unfold cos_term.
  change (2 * 3)%nat with 6%nat. rewrite INR_fact_6. field.
Qed.

Lemma cos_poly_enclosure (x : R) :
  0 <= x <= PI / 2 ->
  1 - x ^ 2 / 2 + x ^ 4 / 24 - x ^ 6 / 720 <= cos x
  <= 1 - x ^ 2 / 2 + x ^ 4 / 24.
Proof.
  intros [H0 H1].
  assert (Hlo : - PI / 2 <= x) by (pose proof PI_RGT_0; lra).
  pose proof (cos_bound x 1 Hlo H1) as [Hl _].
  pose proof (cos_bound x 0 Hlo H1) as [_ Hu].
  change (2 * 1 + 1)%nat with 3%nat in Hl.
  change (2 * (0 + 1))%nat with 2%nat in Hu.
  rewrite cos_approx_3 in Hl. rewrite cos_approx_2 in Hu. lra.
Qed.

Lemma sin_interval (x lo hi : R) :
  0 <= lo -> lo <= x <= hi -> hi <= 3 ->
  lo - hi ^ 3 / 6 <= sin x <= hi.
Proof.
  intros H0 [Hl Hu] H3. pose proof PI_enclosure as [Hpi _].
  assert (Hx : 0 <= x <= PI) by lra.
  pose proof (sin_cubic_lower x Hx) as Hs.
  pose proof (sin_linear_upper x (proj1 Hx)) as Ht.
  assert (Hp : x ^ 3 <= hi ^ 3) by (apply pow_incr; lra).
  lra.
Qed.

Lemma cos_interval (x lo hi : R) :
  0 <= lo -> lo <= x <= hi -> hi <= 3 / 2 ->
  1 - hi ^ 2 / 2 + lo ^ 4 / 24 - hi ^ 6 / 720 <= cos x
  <= 1 - lo ^ 2 / 2 + hi ^ 4 / 24.
Proof.
  intros H0 [Hl Hu] H3. pose proof PI_enclosure as [Hpi _].
  assert (Hx : 0 <= x <= PI / 2) by lra.
  pose proof (cos_poly_enclosure x Hx) as [Hc Hd].
  assert (x ^ 2 <= hi ^ 2) by (apply pow_incr; lra).
  assert (x ^ 4 <= hi ^ 4) by (apply pow_incr; lra).
  assert (x ^ 6 <= hi ^ 6) by (apply pow_incr; lra).
  assert (lo ^ 2 <= x ^ 2) by (apply pow_incr; lra).
  assert (lo ^ 4 <= x ^ 4) by (apply pow_incr; lra).
  lra.
Qed.

(** [arcsin] of a square root against an angle in the first quadrant. *)
Lemma asin_sqrt_lt (a th : R) :
  0 <= a <= 1 -> 0 <= th <= PI / 2 -> a < sin th ^ 2 ->
  asin (sqrt a) < th.
Proof.
  intros [Ha0 Ha1] [Ht0 Ht1] Hlt.
  assert (Hs0 : 0 <= sin th) by (apply sin_ge_0; pose proof PI_RGT_0; lra).
  assert (Hx1 : sqrt a <= 1) by (rewrite <- sqrt_1; now apply sqrt_le_1_alt).
  pose proof (sqrt_pos a) as Hx0.
  pose proof (asin_bound (sqrt a)) as [Hb0 Hb1].
  apply sin_increasing_0; try lra.
  rewrite sin_asin by lra.
  rewrite <- (sqrt_pow2 (sin th)) by assumption.
  now apply sqrt_lt_1_alt.
Qed.

Lemma asin_sqrt_gt (a th : R) :
  0 <= a <= 1 -> 0 <= th <= PI / 2 -> sin th ^ 2 < a ->
  th < asin (sqrt a).
Proof.
  intros [Ha0 Ha1] [Ht0 Ht1] Hlt.
  assert (Hs0 : 0 <= sin th) by (apply sin_ge_0; pose proof PI_RGT_0; lra).
  assert (Hx1 : sqrt a <= 1) by (rewrite <- sqrt_1; now apply sqrt_le_1_alt).
  pose proof (sqrt_pos a) as Hx0.
  pose proof (asin_bound (sqrt a)) as [Hb0 Hb1].
  apply sin_increasing_0; try lra.
  rewrite sin_asin by lra.
  rewrite <- (sqrt_pow2 (sin th)) by assumption.
  apply sqrt_lt_1_alt. split; [apply pow2_ge_0 | assumption].
Qed.

(** The haversine term of the worked scenario: sun at (57.0, 209.2),
    candidate at (55.0, 207.0). *)
Lemma scenario_a_unfold :
  haversine_a 57 209.2 55 207
  = sin (PI / 180) ^ 2
    + cos (57 * (PI / 180)) * cos (55 * (PI / 180))
      * sin (1.1 * (PI / 180)) ^ 2.
Proof.
  unfold haversine_a, Numpy.radians. cbv zeta.
  replace ((55 * (PI / 180) - 57 * (PI / 180)) / 2)
    with (- (PI / 180)) by lra.
  replace ((207 * (PI / 180) - 209.2 * (PI / 180)) / 2)
    with (- (1.1 * (PI / 180))) by lra.
  rewrite !sin_neg. ring.
Qed.

Lemma scenario_a_enclosure :
  0.0004196 < haversine_a 57 209.2 55 207 < 0.0004203.
Proof.
  rewrite scenario_a_unfold.
  pose proof one_degree_enclosure as [Hl Hu].
  set (t := PI / 180) in *.
  pose proof (sin_interval t 0.0174532 0.0174534) as Hs1.
  pose proof (sin_interval (1.1 * t) 0.01919852 0.01919874) as Hs2.
  pose proof (cos_interval (57 * t) 0.9948324 0.9948438) as Hc1.
  pose proof (cos_interval (55 * t) 0.959926 0.959937) as Hc2.
  destruct Hs1 as [Hs1l Hs1u]; try lra.
  destruct Hs2 as [Hs2l Hs2u]; try lra.
  destruct Hc1 as [Hc1l Hc1u]; try lra.
  destruct Hc2 as [Hc2l Hc2u]; try lra.
  set (s1 := sin t) in *. set (s2 := sin (1.1 * t)) in *.
  set (c1 := cos (57 * t)) in *. set (c2 := cos (55 * t)) in *.
  assert (Hs1b : 0.017452 <= s1 <= 0.0174534) by lra.
  assert (Hs2b : 0.019197 <= s2 <= 0.01919874) by lra.
  assert (Hc1b : 0.5446 <= c1 <= 0.5460) by lra.
  assert (Hc2b : 0.5735 <= c2 <= 0.5747) by lra.
  clear Hs1l Hs1u Hs2l Hs2u Hc1l Hc1u Hc2l Hc2u.
  assert (Hp1 : 0.017452 ^ 2 <= s1 ^ 2 <= 0.0174534 ^ 2)
    by (split; apply pow_incr; lra).
  assert (Hp2 : 0.019197 ^ 2 <= s2 ^ 2 <= 0.01919874 ^ 2)
    by (split; apply pow_incr; lra).
  assert (Hcc : 0.5446 * 0.5735 <= c1 * c2 <= 0.5460 * 0.5747)
    by (split; apply Rmult_le_compat; lra).
  assert (Hq : 0.5446 * 0.5735 * 0.019197 ^ 2 <= c1 * c2 * s2 ^ 2
               <= 0.5460 * 0.5747 * 0.01919874 ^ 2)
    by (split; apply Rmult_le_compat; lra).
  lra.
Qed.

Lemma scenario_separation_enclosure :
  2.345 < angular_separation 57 209.2 55 207 < 2.355.
Proof.
  pose proof scenario_a_enclosure as [Hal Hau].
  pose proof (haversine_a_range 57 209.2 55 207) as Hr.
  pose proof one_degree_enclosure as [Hl Hu].
  pose proof PI_enclosure as [Hpl Hpu].
  unfold angular_separation, Numpy.degrees. cbv zeta.
  set (a := haversine_a 57 209.2 55 207) in *.
  set (t := PI / 180) in *.
  assert (Hup : asin (sqrt a) < 1.1775 * t).
  { apply asin_sqrt_lt; [assumption | unfold t; lra |].
    destruct (sin_interval (1.1775 * t) 0.0205511 0.0205514) as [Hs _];
      try lra.
    assert (0.0205496 ^ 2 <= sin (1.1775 * t) ^ 2)
      by (apply pow_incr; lra).
    lra. }
  assert (Hdn : 1.1725 * t < asin (sqrt a)).
  { apply asin_sqrt_gt; [assumption | unfold t; lra |].
    destruct (sin_interval (1.1725 * t) 0.0204638 0.0204642) as [Hs0 Hs];
      try lra.
    assert (sin (1.1725 * t) ^ 2 <= 0.0204642 ^ 2)
      by (apply pow_incr; lra).
    lra. }
  assert (Ht : 180 / PI = / t) by (unfold t; field; lra).
  rewrite Ht.
  assert (Hti : 0 < / t) by (apply Rinv_0_lt_compat; lra).
  assert (Hone : t * / t = 1) by (apply Rinv_r; lra).
  split.
  - replace 2.345 with (2 * 1.1725 * (t * / t)) by (rewrite Hone; lra).
    rewrite <- !Rmult_assoc. apply Rmult_lt_compat_r; lra.
  - replace 2.355 with (2 * 1.1775 * (t * / t)) by (rewrite Hone; lra).
    rewrite <- !Rmult_assoc. apply Rmult_lt_compat_r; lra.
Qed.

End Enclosures.

(** ** Facts about [list_sort] *)

Section ListSortFacts.

Context {A : Type} (key : A -> R).

Lemma Rltb_true (x y : R) : Rltb x y = true <-> x < y.
Proof. unfold Rltb. destruct (Rlt_dec x y); split; intros; try easy. Qed.

Lemma Rltb_false (x y : R) : Rltb x y = false <-> y <= x.
Proof.
  unfold Rltb. destruct (Rlt_dec x y); split; intros; try easy; lra.
Qed.

Lemma insert_by_perm (c : A) (l : list A) :
  Permutation (insert_by key c l) (c :: l).
Proof.
  induction l as [| d l IH]; simpl; [reflexivity |].
  destruct (Rltb (key d) (key c)); [| reflexivity].
  rewrite IH. apply perm_swap.
Qed.

Lemma list_sort_perm (l : list A) : Permutation (list_sort key l) l.
Proof.
  induction l as [| c l IH]; simpl; [reflexivity |].
  rewrite insert_by_perm. now apply perm_skip.
Qed.

Lemma insert_by_sorted (c : A) (l : list A) :
  StronglySorted (key_le key) l -> StronglySorted (key_le key) (insert_by key c l).
Proof.
  induction 1 as [| d l Hs IH Hd]; simpl.
  - repeat constructor.
  - destruct (Rltb (key d) (key c)) eqn:E.
    + apply Rltb_true in E. constructor; [assumption |].
      rewrite (Forall_forall (key_le key d)). intros x Hx.
      apply (Permutation_in _ (insert_by_perm c l)) in Hx.
      destruct Hx as [<- | Hx]; [unfold key_le; lra |].
      now apply (proj1 (Forall_forall _ _) Hd).
    + apply Rltb_false in E. constructor; [now constructor |].
      constructor; [exact E |].
      apply Forall_impl with (P := key_le key d); [| assumption].
      unfold key_le. intros; lra.
Qed.

Lemma list_sort_sorted (l : list A) : StronglySorted (key_le key) (list_sort key l).
Proof.
  induction l as [| c l IH]; simpl; [constructor |].
  now apply insert_by_sorted.
Qed.

(** Stability: the elements of any one key keep their order. *)
Lemma insert_by_stable (k : R) (c : A) (l : list A) :
  filter (has_key key k) (insert_by key c l) = filter (has_key key k) (c :: l).
Proof.
  induction l as [| d l IH]; [reflexivity |].
  simpl insert_by. destruct (Rltb (key d) (key c)) eqn:E; [| reflexivity].
  apply Rltb_true in E. simpl in *. rewrite IH.
  unfold has_key.
  destruct (Req_dec_T (key d) k), (Req_dec_T (key c) k); try reflexivity.
  lra.
Qed.

Lemma list_sort_stable (k : R) (l : list A) :
  filter (has_key key k) (list_sort key l) = filter (has_key key k) l.
Proof.
  induction l as [| c l IH]; [reflexivity |].
  simpl list_sort. rewrite insert_by_stable. simpl. now rewrite IH.
Qed.

(** An ascending list is determined by the order it gives to the
    elements of each single key. *)
Lemma sorted_by_filters_unique (l1 l2 : list A) :
  StronglySorted (key_le key) l1 -> StronglySorted (key_le key) l2 ->
  (forall k, filter (has_key key k) l1 = filter (has_key key k) l2) ->
  l1 = l2.
Proof.
  assert (Hself : forall x, has_key key (key x) x = true).
  { intros x. unfold has_key. now destruct (Req_dec_T (key x) (key x)). }
  assert (Hkey : forall k x, has_key key k x = true -> key x = k).
  { intros k x. unfold has_key. now destruct (Req_dec_T (key x) k). }
  intros H1. revert l2.
  induction H1 as [| c l1 Hs1 IH Hc]; intros l2 H2 Hf.
  - destruct l2 as [| d l2]; [reflexivity |].
    specialize (Hf (key d)). simpl in Hf. now rewrite Hself in Hf.
  - destruct H2 as [| d l2 Hs2 Hd].
    + specialize (Hf (key c)). simpl in Hf. now rewrite Hself in Hf.
    + assert (Hcd : key c = key d).
      { apply Rle_antisym.
        - pose proof (Hf (key d)) as Hk. simpl in Hk. rewrite Hself in Hk.
          destruct (has_key key (key d) c) eqn:E; [apply Hkey in E; lra |].
          assert (Hin : In d (filter (has_key key (key d)) l1))
            by (rewrite Hk; now left).
          apply filter_In in Hin as [Hin _].
          exact (proj1 (Forall_forall _ _) Hc d Hin).
        - pose proof (Hf (key c)) as Hk. simpl in Hk. rewrite Hself in Hk.
        destruct (has_key key (key c) d) eqn:E; [apply Hkey in E; lra |].
          assert (Hin : In c (filter (has_key key (key c)) l2))
            by (rewrite <- Hk; now left).
          apply filter_In in Hin as [Hin _].
          exact (proj1 (Forall_forall _ _) Hd c Hin). }
      assert (c = d).
      { pose proof (Hf (key c)) as Hk. simpl in Hk.
        rewrite Hself in Hk. rewrite Hcd in Hk at 2.
        rewrite Hself in Hk. now injection Hk. }
      subst d. f_equal. apply IH; [assumption |].
      intros k. specialize (Hf k). simpl in Hf.
      destruct (has_key key k c); [now injection Hf | assumption].
Qed.

(** Every stable ascending arrangement of [l] is [list_sort key l]: the
    model returns what any stable sort that orders keys by [<], the
    builtin among them, leaves in the list. *)
Lemma stable_sort_unique (l l' : list A) :
  StronglySorted (key_le key) l' ->
  (forall k, filter (has_key key k) l' = filter (has_key key k) l) ->
  l' = list_sort key l.
Proof.
  intros Hs Hf. apply sorted_by_filters_unique;
    [assumption | apply list_sort_sorted |].
  intros k. now rewrite Hf, list_sort_stable.
Qed.

Lemma sorted_R_unique (l1 l2 : list R) :
  StronglySorted Rle l1 -> StronglySorted Rle l2 ->
  Permutation l1 l2 -> l1 = l2.
Proof.
  intros H1. revert l2.
  induction H1 as [| c l1 Hs1 IH Hc]; intros l2 H2 Hp.
  - apply Permutation_nil in Hp. now subst.
  - destruct H2 as [| d l2 Hs2 Hd].
    + apply Permutation_sym, Permutation_nil in Hp. discriminate.
    + assert (Hcd : c = d).
      { apply Rle_antisym.
        - assert (Hin : In d (c :: l1))
            by (apply (Permutation_in _ (Permutation_sym Hp)); now left).
          destruct Hin as [<- | Hin]; [lra |].
          exact (proj1 (Forall_forall _ _) Hc d Hin).
        - assert (Hin : In c (d :: l2))
            by (apply (Permutation_in _ Hp); now left).
          destruct Hin as [<- | Hin]; [lra |].
          exact (proj1 (Forall_forall _ _) Hd c Hin). }
      subst d. f_equal. apply IH; [assumption |].
      now apply Permutation_cons_inv with c.
Qed.

Lemma sorted_map_key (l : list A) :
  StronglySorted (key_le key) l -> StronglySorted Rle (map key l).
Proof.
  induction 1 as [| c l Hs IH Hc]; simpl; constructor; [assumption |].
  rewrite Forall_map. exact Hc.
Qed.

(** Two ascending arrangements of the same elements show the same
    sequence of keys. *)
Lemma sorted_keys_unique (l1 l2 : list A) :
  StronglySorted (key_le key) l1 -> StronglySorted (key_le key) l2 ->
  Permutation l1 l2 -> map key l1 = map key l2.
Proof.
  intros H1 H2 Hp.
  apply sorted_R_unique; try now apply sorted_map_key.
  now apply Permutation_map.
Qed.

(** With pairwise distinct keys the arrangement itself is unique. *)
Lemma distinct_keys_unique (l1 l2 : list A) :
  Permutation l1 l2 -> map key l1 = map key l2 ->
  NoDup (map key l1) -> l1 = l2.
Proof.
  revert l2. induction l1 as [| c l1 IH]; intros l2 Hp Hk Hn.
  - apply Permutation_nil in Hp. now subst.
  - destruct l2 as [| d l2]; [discriminate |].
    simpl in Hk. injection Hk as Hcd Hk.
    assert (Hin : In c (d :: l2)) by (apply (Permutation_in _ Hp); now left).
    inversion Hn as [| ? ? Hnotin Hn']; subst.
    destruct Hin as [-> | Hin].
    + f_equal. apply IH; try assumption.
      now apply Permutation_cons_inv with c.
    + exfalso. apply Hnotin. rewrite Hk. now apply in_map.
Qed.

Lemma list_sort_distinct (l1 l2 : list A) :
  Permutation l1 l2 -> NoDup (map key l1) ->
  list_sort key l1 = list_sort key l2.
Proof.
  intros Hp Hn.
  assert (Hq : Permutation (list_sort key l1) (list_sort key l2)).
  { rewrite !list_sort_perm. exact Hp. }
  apply distinct_keys_unique; [exact Hq | |].
  - apply sorted_keys_unique; auto using list_sort_sorted.
  - apply (Permutation_NoDup (l := map key l1)); [| assumption].
    apply Permutation_map, Permutation_sym, list_sort_perm.
Qed.

End ListSortFacts.

(** ** Facts about [before] *)

Section BeforeFacts.

Context {A : Type}.

Lemma before_cons (a x y : A) (l : list A) :
  before x y l -> before x y (a :: l).
Proof.
  intros (l1 & l2 & l3 & ->). now exists (a :: l1), l2, l3.
Qed.

Lemma before_head (x y : A) (l : list A) : In y l -> before x y (x :: l).
Proof.
  intros Hin. apply in_split in Hin as (l2 & l3 & ->).
  now exists [], l2, l3.
Qed.

Lemma before_cons_inv (a x y : A) (l : list A) :
  before x y (a :: l) -> (a = x /\ In y l) \/ before x y l.
Proof.
  intros (l1 & l2 & l3 & E). destruct l1 as [| b l1]; simpl in E.
  - injection E as -> ->. left. split; [reflexivity |].
    apply in_or_app. right. now left.
  - injection E as -> ->. right. now exists l1, l2, l3.
Qed.

Lemma before_app_l (x y : A) (l l' : list A) :
  before x y l -> before x y (l ++ l').
Proof.
  intros (l1 & l2 & l3 & ->). exists l1, l2, (l3 ++ l').
  now rewrite <- !app_assoc, <- !app_comm_cons, <- app_assoc.
Qed.

Lemma before_app_r (x y : A) (l l' : list A) :
  before x y l' -> before x y (l ++ l').
Proof.
  intros H. induction l; simpl; [assumption | now apply before_cons].
Qed.

Lemma before_app_split (x y : A) (l l' : list A) :
  In x l -> In y l' -> before x y (l ++ l').
Proof.
  intros Hx Hy. apply in_split in Hx as (a & b & ->).
  apply in_split in Hy as (c & d & ->).
  exists a, (b ++ c), d. now rewrite <- !app_assoc.
Qed.

Lemma before_firstn (n : nat) (x y : A) (l : list A) :
  before x y (firstn n l) -> before x y l.
Proof.
  intros H. rewrite <- (firstn_skipn n l). now apply before_app_l.
Qed.

Lemma before_filter_intro (p : A -> bool) (x y : A) (l : list A) :
  p x = true -> p y = true -> before x y l -> before x y (filter p l).
Proof.
  intros Hx Hy (l1 & l2 & l3 & ->).
  exists (filter p l1), (filter p l2), (filter p l3).
  rewrite filter_app. simpl. rewrite Hx, filter_app. simpl. now rewrite Hy.
Qed.

Lemma before_filter_elim (p : A -> bool) (x y : A) (l : list A) :
  before x y (filter p l) -> before x y l.
Proof.
  induction l as [| a l IH]; simpl; intros H.
  - destruct H as ([| ? ?] & ? & ? & E); discriminate.
  - destruct (p a).
    + apply before_cons_inv in H as [[-> Hin] | H].
      * apply before_head. apply filter_In in Hin. tauto.
      * apply before_cons. now apply IH.
    + apply before_cons. now apply IH.
Qed.

End BeforeFacts.

(** Through a [flat_map]: the sources of two images are in the order of
    the images, when each source has at most one image. *)
Lemma before_flat_map {A B : Type} (f : B -> list A) (x y : A) (l : list B) :
  (forall b, (List.length (f b) <= 1)%nat) ->
  before x y (flat_map f l) ->
  exists a b, before a b l /\ In x (f a) /\ In y (f b).
Proof.
  intros Hf. induction l as [| c l IH]; simpl; intros H.
  - destruct H as ([| ? ?] & ? & ? & E); discriminate.
  - specialize (Hf c) as Hc. destruct (f c) as [| z [| ? ?]] eqn:E;
      simpl in Hc; try lia; simpl in H.
    + destruct (IH H) as (a & b & Hab & Ha & Hb).
      exists a, b. repeat split; try assumption. now apply before_cons.
    + apply before_cons_inv in H as [[-> Hin] | H].
      * apply in_flat_map in Hin as (b & Hb & Hyb).
        exists c, b. split; [now apply before_head |].
        rewrite E. split; [now left | assumption].
      * destruct (IH H) as (a & b & Hab & Ha & Hb).
        exists a, b. repeat split; try assumption. now apply before_cons.
Qed.

(** ** How the routine runs *)

Section RankingFacts.

Context `{SF : Skyfield}.

Lemma load_sats_world (gp_data : list loc) (w : world) :
  snd (load_sats gp_data w) = w.
Proof.
  revert w. induction gp_data as [| l gp IH]; intros w; [reflexivity |].
  unfold load_sats in *. simpl. unfold bind, deref, lift, ret. simpl.
  destruct (from_omm (heap w l)); [| reflexivity].
  specialize (IH w). destruct (comprehension _ gp w) as [[ys | e] w'];
    simpl in *; congruence.
Qed.

Lemma load_sats_returns (gp_data : list loc) (w w' : world)
    (sats : list EarthSatellite) :
  load_sats gp_data w = (Return sats, w') <->
  w' = w /\ Forall2 (constructs w) gp_data sats.
Proof.
  revert sats. induction gp_data as [| l gp IH]; intros sats.
  - unfold load_sats. simpl. unfold ret. split.
    + intros [= <- <-]. split; [reflexivity | constructor].
    + intros [-> H]. inversion H. reflexivity.
  - pose proof (load_sats_world gp w) as Hw.
    unfold load_sats in *. simpl. unfold bind, deref, lift, ret. simpl.
    destruct (from_omm (heap w l)) as [s | e] eqn:E.
    + destruct (comprehension _ gp w) as [[ys | e] w1] eqn:Er;
        simpl in Hw; subst w1.
      * split.
        -- intros [= <- <-]. split; [reflexivity |].
           constructor; [assumption |]. now apply (IH ys).
        -- intros [-> H]. inversion H as [| ? s' ? ys' Hs Hys]; subst.
           apply (fun p => proj2 (IH ys') (conj eq_refl p)) in Hys.
           congruence.
      * split; [discriminate |].
        intros [-> H]. inversion H as [| ? s' ? ys' Hs Hys]; subst.
        apply (fun p => proj2 (IH ys') (conj eq_refl p)) in Hys.
        discriminate.
    + split; [discriminate |].
      intros [-> H]. inversion H; subst. unfold constructs in *. congruence.
Qed.

Lemma constructs_length (w : world) (gp_data : list loc)
    (sats : list EarthSatellite) :
  Forall2 (constructs w) gp_data sats ->
  List.length sats = List.length gp_data.
Proof. induction 1; simpl; congruence. Qed.

Lemma constructs_selected (w : world) (gp_data : list loc)
    (sats : list EarthSatellite) :
  Forall2 (constructs w) gp_data sats ->
  flat_map selected sats = flat_map (candidates_at w) gp_data.
Proof.
  induction 1 as [| l s gp sats Hs _ IH]; [reflexivity |].
  simpl. unfold candidates_at at 1. unfold constructs in Hs.
  rewrite Hs. now rewrite IH.
Qed.


Lemma collect_candidates_returns (sats : list EarthSatellite)
    (candidates cands : list Candidate) (w w' : world) :
  collect_candidates sats candidates w = (Return cands, w') <->
  w' = w /\ Forall observed sats /\
  cands = candidates ++ flat_map selected sats.
Proof.
  revert candidates. induction sats as [| s sats IH]; intros acc.
  - simpl. unfold ret. rewrite app_nil_r. split.
    + intros [= <- <-]. auto.
    + intros (-> & _ & ->). reflexivity.
  - simpl. unfold bind, lift, selected.
    destruct (altaz s JACKSON FIRST_OBJECT) as [[[a z] d] | e] eqn:E.
    + destruct (Rgtb (degrees a) 0 && Rltb (km d) 10000).
      * rewrite IH, <- app_assoc. simpl. split.
        -- intros (-> & Hf & ->). split; [reflexivity |].
           split; [| reflexivity].
           constructor; [unfold observed; eauto | assumption].
        -- intros (-> & Hf & ->). inversion Hf; subst. auto.
      * rewrite IH. simpl. split.
        -- intros (-> & Hf & ->). split; [reflexivity |].
           split; [| reflexivity].
           constructor; [unfold observed; eauto | assumption].
        -- intros (-> & Hf & ->). inversion Hf; subst. auto.
    + split; [discriminate |].
      intros (_ & Hf & _). inversion Hf as [| ? ? [t Ht] _]; subst.
      unfold observed in *.
      congruence.
Qed.

Lemma print_candidates_run (cs : list Candidate) (w : world) :
  for_each print_candidate cs w = (Return tt, printed w (flat_map report cs)).
Proof.
  revert w. induction cs as [| c cs IH]; intros w.
  - simpl. unfold ret, printed. rewrite app_nil_r. now destruct w.
  - simpl for_each. unfold bind at 1.
    unfold print_candidate, bind, print. simpl.
    rewrite IH. unfold printed. simpl. f_equal. f_equal.
    now rewrite <- !app_assoc.
Qed.

Lemma evaluates_split (w : world) (gp_data : list loc) :
  Forall (evaluates w) gp_data ->
  exists sats, Forall2 (constructs w) gp_data sats /\ Forall observed sats.
Proof.
  induction 1 as [| l gp (s & t & Hs & Ht) _ (sats & H2 & Ho)].
  - exists []. split; constructor.
  - exists (s :: sats). split; constructor; try assumption.
    now exists t.
Qed.

Lemma evaluates_join (w : world) (gp_data : list loc)
    (sats : list EarthSatellite) :
  Forall2 (constructs w) gp_data sats -> Forall observed sats ->
  Forall (evaluates w) gp_data.
Proof.
  induction 1 as [| l s gp sats Hs _ IH]; intros Ho; constructor.
  - inversion Ho as [| ? ? [t Ht] _]; subst. now exists s, t.
  - inversion Ho; subst. now apply IH.
Qed.

Lemma constructs_functional (w : world) (gp_data : list loc)
    (sats sats' : list EarthSatellite) :
  Forall2 (constructs w) gp_data sats ->
  Forall2 (constructs w) gp_data sats' -> sats = sats'.
Proof.
  intros H. revert sats'.
  induction H as [| l s gp sats Hs _ IH]; intros sats' H';
    inversion H' as [| ? s' ? ? Hs' Hr]; subst; [reflexivity |].
  unfold constructs in *. f_equal; [congruence | now apply IH].
Qed.

(** The routine returns exactly when every record evaluates, and then it
    returns and prints the first five of the sorted survivors. *)
Lemma find_returns (gp_data : list loc) (w w' : world)
    (out : list Candidate) :
  find_smarter_every_days_satellite gp_data w = (Return out, w') <->
  Forall (evaluates w) gp_data /\
  out = firstn 5 (list_sort sep (flat_map (candidates_at w) gp_data)) /\
  w' = printed w (LineLoaded (List.length gp_data) :: flat_map report out).
Proof.
  unfold find_smarter_every_days_satellite. unfold bind at 1.
  destruct (load_sats gp_data w) as [[sats | e] w1] eqn:EL.
  - apply load_sats_returns in EL as [-> H2].
    unfold bind at 1. unfold print at 1.
    set (w1 := {| heap := heap w;
                  stdout := stdout w ++ [LineLoaded (List.length sats)] |}).
    unfold bind at 1.
    destruct (collect_candidates sats [] w1) as [[cands | e] w2] eqn:EC.
    + apply collect_candidates_returns in EC as (-> & Ho & ->).
      simpl app. rewrite (constructs_selected _ _ _ H2).
      unfold bind at 1. rewrite print_candidates_run. unfold ret.
      set (top := firstn 5 _).
      assert (Ew : printed w1 (flat_map report top)
                   = printed w (LineLoaded (List.length gp_data)
                                  :: flat_map report top)).
      { unfold printed, w1. simpl. rewrite (constructs_length _ _ _ H2).
        now rewrite <- app_assoc. }
      rewrite Ew. split.
      * intros [= <- <-]. split; [now apply evaluates_join with sats |].
        split; reflexivity.
      * intros (_ & -> & ->). reflexivity.
    + split; [discriminate |]. intros (Hf & _).
      apply evaluates_split in Hf as (sats' & H2' & Ho).
      rewrite (constructs_functional _ _ _ _ H2 H2') in EC.
      assert (Hr : collect_candidates sats' [] w1
                   = (Return ([] ++ flat_map selected sats'), w1))
        by (apply collect_candidates_returns; auto).
      congruence.
  - split; [discriminate |]. intros (Hf & _).
    apply evaluates_split in Hf as (sats' & H2' & Ho).
    assert (Hr : load_sats gp_data w = (Return sats', w))
      by (apply load_sats_returns; auto).
    congruence.
Qed.

(** Otherwise it raises. *)
Lemma find_raises (gp_data : list loc) (w : world) (l : loc) :
  In l gp_data -> fails w l ->
  exists e w', find_smarter_every_days_satellite gp_data w = (Raise e, w').
Proof.
  intros Hin Hfail.
  destruct (find_smarter_every_days_satellite gp_data w)
    as [[out | e] w'] eqn:E; [| now exists e, w'].
  apply find_returns in E as (Hf & _). exfalso.
  rewrite Forall_forall in Hf. destruct (Hf l Hin) as (s & t & Hs & Ht).
  destruct Hfail as [[e He] | (s' & e & Hs' & He)]; [congruence |].
  assert (s' = s) by congruence. subst. congruence.
Qed.

End RankingFacts.

(** ** Where a returned candidate comes from *)

Section Provenance.

Context `{SF : Skyfield}.

Lemma selected_spec (s : EarthSatellite) (c : Candidate) :
  In c (selected s) ->
  sat c = s /\
  altaz s JACKSON FIRST_OBJECT = Return (alt c, az c, distance c) /\
  0 < degrees (alt c) /\ km (distance c) < 10000 /\
  sep c = angular_separation SUN_ALT SUN_AZ
            (degrees (alt c)) (degrees (az c)).
Proof.
  unfold selected.
  destruct (altaz s JACKSON FIRST_OBJECT) as [[[a z] d] | e]; [| easy].
  destruct (Rgtb (degrees a) 0 && Rltb (km d) 10000) eqn:E; [| easy].
  intros [<- | []]. simpl. apply andb_prop in E as [Ea Ed].
  apply Rltb_true in Ea, Ed. auto.
Qed.

Lemma selected_length (s : EarthSatellite) :
  (List.length (selected s) <= 1)%nat.
Proof.
  unfold selected.
  destruct (altaz s JACKSON FIRST_OBJECT) as [[[a z] d] | e]; simpl; [| lia].
  destruct (Rgtb (degrees a) 0 && Rltb (km d) 10000); simpl; lia.
Qed.

Lemma candidates_at_spec (w : world) (l : loc) (c : Candidate) :
  In c (candidates_at w l) ->
  from_omm (heap w l) = Return (sat c) /\ In c (selected (sat c)).
Proof.
  unfold candidates_at. destruct (from_omm (heap w l)) as [s | e]; [| easy].
  intros Hin. destruct (selected_spec s c Hin) as [<- _]. auto.
Qed.

Lemma candidates_at_length (w : world) (l : loc) :
  (List.length (candidates_at w l) <= 1)%nat.
Proof.
  unfold candidates_at. destruct (from_omm (heap w l)); simpl;
    [apply selected_length | lia].
Qed.

Lemma In_firstn {A : Type} (n : nat) (x : A) (l : list A) :
  In x (firstn n l) -> In x l.
Proof.
  intros H. rewrite <- (firstn_skipn n l). apply in_or_app. now left.
Qed.

Lemma returned_candidate (gp_data : list loc) (w w' : world)
    (out : list Candidate) (c : Candidate) :
  find_smarter_every_days_satellite gp_data w = (Return out, w') ->
  In c out ->
  exists l, In l gp_data /\ In c (candidates_at w l).
Proof.
  intros Hrun Hin. apply find_returns in Hrun as (_ & -> & _).
  apply In_firstn in Hin.
  apply (Permutation_in _ (list_sort_perm sep _)) in Hin.
  apply in_flat_map in Hin. exact Hin.
Qed.

Lemma StronglySorted_firstn {A : Type} (R : A -> A -> Prop) (n : nat)
    (l : list A) :
  StronglySorted R l -> StronglySorted R (firstn n l).
Proof.
  intros H. revert n. induction H as [| a l Hs IH Ha]; intros [| n]; simpl;
    try constructor.
  - apply IH.
  - rewrite Forall_forall in *. intros x Hx. apply Ha.
    now apply In_firstn with n.
Qed.

Lemma StronglySorted_adjacent {A : Type} (R : A -> A -> Prop)
    (l : list A) (i : nat) (c d : A) :
  StronglySorted R l ->
  nth_error l i = Some c -> nth_error l (S i) = Some d -> R c d.
Proof.
  intros H. revert i. induction H as [| a l Hs IH Ha]; intros i Hc Hd.
  - destruct i; discriminate.
  - destruct i as [| i]; simpl in Hc, Hd.
    + injection Hc as ->. rewrite Forall_forall in Ha. apply Ha.
      destruct l; [discriminate |]. simpl in Hd. injection Hd as ->.
      now left.
    + now apply IH with i.
Qed.

Lemma has_key_true {A : Type} (key : A -> R) (k : R) (x : A) :
  has_key key k x = true <-> key x = k.
Proof. unfold has_key. destruct (Req_dec_T (key x) k); split; easy. Qed.

End Provenance.

(** ** What a run leaves behind *)

Section Effects.

Context `{SF : Skyfield}.


(** The routine as a composition of its three stages. *)
Lemma find_unfold (gp_data : list loc) (w : world) :
  find_smarter_every_days_satellite gp_data w =
  match load_sats gp_data w with
  | (Raise e, w1) => (Raise e, w1)
  | (Return sats, w1) =>
      match collect_candidates sats []
              (printed w1 [LineLoaded (List.length sats)]) with
      | (Raise e, w2) => (Raise e, w2)
      | (Return cands, w2) =>
          let top := firstn 5 (list_sort sep cands) in
          (Return top, printed w2 (flat_map report top))
      end
  end.
Proof.
  unfold find_smarter_every_days_satellite. unfold bind at 1.
  destruct (load_sats gp_data w) as [[sats | e] w1]; [| reflexivity].
  unfold bind at 1. unfold print at 1. unfold bind at 1.
  fold (printed w1 [LineLoaded (List.length sats)]).
  destruct (collect_candidates sats [] _) as [[cands | e] w2];
    [| reflexivity].
  unfold bind. now rewrite print_candidates_run.
Qed.






End Effects.

(** ** Running the routine on the test double *)

Module DoubleFacts.

Import Double.

Ltac decide_Rlt :=
  repeat match goal with
         | |- context [Rlt_dec ?a ?b] => destruct (Rlt_dec a b); try lra
         end.

Ltac at_record :=
  unfold candidates_at, selected; simpl;
  unfold Rgtb, Rltb; simpl; decide_Rlt; reflexivity.

Lemma at_sunward : candidates_at w0 0%nat = [sunward].
Proof. at_record. Qed.

Lemma at_twin : candidates_at w0 1%nat = [twin].
Proof. at_record. Qed.

Lemma at_nearby : candidates_at w0 2%nat = [nearby].
Proof. at_record. Qed.

Lemma at_below : candidates_at w0 3%nat = [].
Proof. at_record. Qed.

Lemma at_far : candidates_at w0 4%nat = [].
Proof. at_record. Qed.

Lemma evaluates_upto_4 (l : loc) : (l <= 4)%nat -> evaluates w0 l.
Proof.
  intros H. do 5 (destruct l as [| l]; [eexists _, _; split; reflexivity |]).
  lia.
Qed.

Lemma evaluates_all (gp_data : list loc) :
  forallb (fun l => Nat.leb l 4) gp_data = true ->
  Forall (evaluates w0) gp_data.
Proof.
  rewrite forallb_forall, Forall_forall. intros H l Hl.
  apply evaluates_upto_4, Nat.leb_le. now apply H.
Qed.

Lemma sep_sunward : sep sunward = 0.
Proof. exact (coincident_separation 57 209.2). Qed.

Lemma sep_twin : sep twin = 0.
Proof. exact (coincident_separation 57 209.2). Qed.

Lemma sep_nearby : 2.345 < sep nearby < 2.355.
Proof. exact scenario_separation_enclosure. Qed.

Ltac sort_by_sep :=
  cbn [list_sort fold_right insert_by];
  repeat first
    [ rewrite (proj2 (Rltb_true _ _))
        by (pose proof sep_sunward; pose proof sep_twin;
            pose proof sep_nearby; lra)
    | rewrite (proj2 (Rltb_false _ _))
        by (pose proof sep_sunward; pose proof sep_twin;
            pose proof sep_nearby; lra) ];
  cbn [list_sort fold_right insert_by].

(** Two objects at the same separation, in both input orders. *)
Lemma run_sunward_twin :
  find_smarter_every_days_satellite [0; 1]%nat w0
  = (Return [sunward; twin],
     printed w0 (LineLoaded 2 :: report sunward ++ report twin)).
Proof.
  apply find_returns. split; [now apply evaluates_all |].
  cbn [flat_map]. rewrite at_sunward, at_twin. cbn [app].
  sort_by_sep. split; reflexivity.
Qed.

Lemma run_twin_sunward :
  find_smarter_every_days_satellite [1; 0]%nat w0
  = (Return [twin; sunward],
     printed w0 (LineLoaded 2 :: report twin ++ report sunward)).
Proof.
  apply find_returns. split; [now apply evaluates_all |].
  cbn [flat_map]. rewrite at_sunward, at_twin. cbn [app].
  sort_by_sep. split; reflexivity.
Qed.

(** Two objects at different separations, in both input orders. *)
Lemma run_nearby_sunward :
  find_smarter_every_days_satellite [2; 0]%nat w0
  = (Return [sunward; nearby],
     printed w0 (LineLoaded 2 :: report sunward ++ report nearby)).
Proof.
  apply find_returns. split; [now apply evaluates_all |].
  cbn [flat_map]. rewrite at_sunward, at_nearby. cbn [app].
  sort_by_sep. split; reflexivity.
Qed.

(** A batch with objects below the horizon and out of range. *)
Lemma run_with_discards :
  find_smarter_every_days_satellite [3; 2; 4]%nat w0
  = (Return [nearby], printed w0 (LineLoaded 3 :: report nearby)).
Proof.
  apply find_returns. split; [now apply evaluates_all |].
  cbn [flat_map]. rewrite at_below, at_nearby, at_far. cbn [app].
  sort_by_sep. split; reflexivity.
Qed.

Lemma load_nearby_sunward :
  load_sats [2; 0]%nat w0
  = (Return [model "NEARBY"; model "SUNWARD"], w0).
Proof. reflexivity. Qed.

Lemma collect_nearby_sunward :
  collect_candidates [model "NEARBY"; model "SUNWARD"] [] w0
  = (Return [nearby; sunward], w0).
Proof.
  apply collect_candidates_returns. split; [reflexivity |]. split.
  - repeat constructor; eexists; reflexivity.
  - cbn [flat_map app].
    change (selected (model "NEARBY")) with (candidates_at w0 2%nat).
    change (selected (model "SUNWARD")) with (candidates_at w0 0%nat).
    now rewrite at_nearby, at_sunward.
Qed.

Lemma distinct_nearby_sunward : NoDup (map sep [nearby; sunward]).
Proof.
  pose proof sep_sunward. pose proof sep_nearby.
  cbn [map]. constructor; [cbn [In]; intros [Heq | []]; lra |].
  constructor; [cbn [In]; tauto | constructor].
Qed.

Lemma sunward_is_not_twin : sunward <> twin.
Proof. intros H. 
  discriminate (f_equal (fun c : @Candidate skyfield => name (sat c)) H). Qed.

End DoubleFacts.

(** * The specification's claims *)

(** ** Angular separation *)

(** C5, as the specification words it, does not hold: [angular_separation]
    at sun (57.0, 209.2) and candidate (55.0, 207.0) is not within 0.05 of
    2.55 degrees, whatever holds for the coincident candidate. *)
Lemma C5_scenario_separation_is_not_2_55 :
  ~ (2.5 <= angular_separation SUN_ALT SUN_AZ 55 207 <= 2.6 /\
     haversine_a SUN_ALT SUN_AZ 57 209.2 = 0 /\
     angular_separation SUN_ALT SUN_AZ 57 209.2 = 0).
Proof.
  intros [[Hlo _] _]. unfold SUN_ALT, SUN_AZ in Hlo.
  pose proof scenario_separation_enclosure as [_ Hup]. lra.
Qed.

(** C5, amended: with the sun at (57.0, 209.2), [angular_separation] gives
    2.35 degrees to two decimals (it lies strictly between 2.345 and
    2.355) for the candidate at (55.0, 207.0); for the candidate at
    (57.0, 209.2) the haversine term [a] is exactly 0, which is inside the
    domain of the square root and of the arc sine, and the separation is
    exactly 0. *)
Theorem C5_scenario_separation :
  2.345 < angular_separation SUN_ALT SUN_AZ 55 207 < 2.355 /\
  haversine_a SUN_ALT SUN_AZ 57 209.2 = 0 /\
  angular_separation SUN_ALT SUN_AZ 57 209.2 = 0.
Proof.
  unfold SUN_ALT, SUN_AZ. split; [exact scenario_separation_enclosure |].
  split; [apply coincident_a | apply coincident_separation].
Qed.

(** C6: [angular_separation] is symmetric in its two directions. *)
Theorem C6_angular_separation_symmetric (alt1 az1 alt2 az2 : R) :
  angular_separation alt1 az1 alt2 az2 = angular_separation alt2 az2 alt1 az1.
Proof.
  unfold angular_separation. cbv zeta. now rewrite haversine_a_sym.
Qed.



(** ** The ranking routine *)

Section RankingClaims.

Context `{SF : Skyfield}.

(** C2: every candidate the routine returns has altitude above 0 degrees
    and slant range below 10,000 km; the values it carries are the
    observation of its satellite, so a satellite observed at altitude
    at most 0 or at range at least 10,000 km is not among the returned
    candidates. *)
Theorem C2_returned_candidates_pass_the_filter
    (gp_data : list loc) (w w' : world) (out : list Candidate)
    (c : Candidate) :
  find_smarter_every_days_satellite gp_data w = (Return out, w') ->
  In c out ->
  degrees (alt c) > 0 /\ km (distance c) < 10000 /\
  altaz (sat c) JACKSON FIRST_OBJECT = Return (alt c, az c, distance c).
Proof.
  intros Hrun Hin.
  destruct (returned_candidate _ _ _ _ _ Hrun Hin) as (l & _ & Hl).
  apply candidates_at_spec in Hl as [_ Hs].
  apply selected_spec in Hs as (_ & Ho & Ha & Hd & _).
  repeat split; assumption.
Qed.

(** C3: the returned list is ascending by separation; any two adjacent
    returned candidates satisfy [sep c <= sep d]. *)
Theorem C3_output_sorted_by_separation
    (gp_data : list loc) (w w' : world) (out : list Candidate)
    (i : nat) (c d : Candidate) :
  find_smarter_every_days_satellite gp_data w = (Return out, w') ->
  nth_error out i = Some c -> nth_error out (S i) = Some d ->
  sep c <= sep d.
Proof.
  intros Hrun Hc Hd. apply find_returns in Hrun as (_ & -> & _).
  eapply (StronglySorted_adjacent (key_le sep)); [| exact Hc | exact Hd].
  apply StronglySorted_firstn, list_sort_sorted.
Qed.

(** C4: on the empty collection the routine returns the empty list and
    raises nothing; on every collection it returns at most 5 candidates,
    each carrying the altitude, azimuth and range observed for its
    satellite and the separation of that direction from the sun. *)
Theorem C4_at_most_five_candidates :
  (forall w : world,
      find_smarter_every_days_satellite [] w
      = (Return [], printed w [LineLoaded 0])) /\
  (forall (gp_data : list loc) (w w' : world) (out : list Candidate),
      find_smarter_every_days_satellite gp_data w = (Return out, w') ->
      (List.length out <= 5)%nat /\
      forall c, In c out ->
        altaz (sat c) JACKSON FIRST_OBJECT
        = Return (alt c, az c, distance c) /\
        sep c = angular_separation SUN_ALT SUN_AZ
                  (degrees (alt c)) (degrees (az c))).
Proof.
  split.
  - intros w. apply find_returns. repeat split. constructor.
  - intros gp_data w w' out Hrun. split.
    + apply find_returns in Hrun as (_ & -> & _). apply firstn_le_length.
    + intros c Hin.
      destruct (returned_candidate _ _ _ _ _ Hrun Hin) as (l & _ & Hl).
      apply candidates_at_spec in Hl as [_ Hs].
      apply selected_spec in Hs as (_ & Ho & _ & _ & Hsep). auto.
Qed.

(** C8, amended: when every record of the collection evaluates and no
    two surviving candidates have the same separation, the routine
    returns and prints the same for every permutation of the
    collection. *)
Theorem C8_permutation_with_distinct_separations
    (gp_data gp_data' : list loc) (w w1 w2 : world)
    (sats : list EarthSatellite) (candidates : list Candidate) :
  Permutation gp_data gp_data' ->
  load_sats gp_data w = (Return sats, w1) ->
  collect_candidates sats [] w1 = (Return candidates, w2) ->
  NoDup (map sep candidates) ->
  find_smarter_every_days_satellite gp_data' w
  = find_smarter_every_days_satellite gp_data w.
Proof.
  intros Hp Hl Hc Hn.
  apply load_sats_returns in Hl as [-> H2].
  apply collect_candidates_returns in Hc as (-> & Ho & ->).
  simpl in Hn. rewrite (constructs_selected _ _ _ H2) in Hn.
  pose proof (evaluates_join _ _ _ H2 Ho) as He.
  assert (He' : Forall (evaluates w) gp_data')
    by (eapply Permutation_Forall; eassumption).
  assert (Hs : list_sort sep (flat_map (candidates_at w) gp_data)
               = list_sort sep (flat_map (candidates_at w) gp_data')).
  { apply list_sort_distinct; [| assumption].
    now apply Permutation_flat_map. }
  transitivity
    (Return (firstn 5 (list_sort sep (flat_map (candidates_at w) gp_data))),
     printed w (LineLoaded (List.length gp_data)
                  :: flat_map report
                       (firstn 5 (list_sort sep
                                    (flat_map (candidates_at w) gp_data))))).
  - apply find_returns. rewrite Hs, (Permutation_length Hp). auto.
  - symmetry. apply find_returns. auto.
Qed.


(** C10: two returned candidates of equal separation appear in the order
    in which the records their satellites were built from appear in the
    input collection. *)
Theorem C10_ties_keep_input_order
    (gp_data : list loc) (w w' : world) (out : list Candidate)
    (c1 c2 : Candidate) :
  find_smarter_every_days_satellite gp_data w = (Return out, w') ->
  before c1 c2 out -> sep c1 = sep c2 ->
  exists l1 l2,
    before l1 l2 gp_data /\
    from_omm (heap w l1) = Return (sat c1) /\
    from_omm (heap w l2) = Return (sat c2).
Proof.
  intros Hrun Hb Hk. apply find_returns in Hrun as (_ & -> & _).
  apply before_firstn in Hb.
  apply (before_filter_intro (has_key sep (sep c1))) in Hb;
    try now apply has_key_true.
  rewrite list_sort_stable in Hb. apply before_filter_elim in Hb.
  apply before_flat_map in Hb as (l1 & l2 & Hl & H1 & H2);
    [| apply candidates_at_length].
  exists l1, l2. split; [assumption |].
  split; now apply candidates_at_spec.
Qed.

End RankingClaims.

(** ** The claims on concrete batches *)

Import Double.

(** C1 fails on the routine: a batch holding the malformed record (address
    5, no object name) raises [KeyError] on line 77 before anything is
    printed, whether the malformed record comes first or last, although
    the well-formed record at address 2 alone is ranked; the routine
    neither skips nor logs the failing record. *)
Theorem C1_malformed_record_aborts_the_batch :
  find_smarter_every_days_satellite [5; 2]%nat w0
  = (Raise (KeyError "OBJECT_NAME"), w0) /\
  find_smarter_every_days_satellite [2; 5]%nat w0
  = (Raise (KeyError "OBJECT_NAME"), w0) /\
  find_smarter_every_days_satellite [2]%nat w0
  = (Return [nearby], printed w0 (LineLoaded 1 :: report nearby)).
Proof.
  split; [reflexivity |]. split; [reflexivity |].
  apply find_returns. split; [now apply DoubleFacts.evaluates_all |].
  cbn [flat_map]. rewrite DoubleFacts.at_nearby. split; reflexivity.
Qed.

Lemma C2_returned_candidates_pass_the_filter_witness :
  find_smarter_every_days_satellite [3; 2; 4]%nat w0
  = (Return [nearby], printed w0 (LineLoaded 3 :: report nearby)) /\
  In nearby [nearby] /\
  degrees (alt nearby) > 0 /\ km (distance nearby) < 10000 /\
  altaz (sat nearby) JACKSON FIRST_OBJECT
  = Return (alt nearby, az nearby, distance nearby).
Proof.
  split; [exact DoubleFacts.run_with_discards |].
  split; [now left |].
  apply (C2_returned_candidates_pass_the_filter
           [3; 2; 4]%nat w0 _ [nearby] nearby DoubleFacts.run_with_discards).
  now left.
Defined.

Lemma C3_output_sorted_by_separation_witness :
  find_smarter_every_days_satellite [2; 0]%nat w0
  = (Return [sunward; nearby],
     printed w0 (LineLoaded 2 :: report sunward ++ report nearby)) /\
  nth_error [sunward; nearby] 0 = Some sunward /\
  nth_error [sunward; nearby] 1 = Some nearby /\
  sep sunward <= sep nearby.
Proof.
  split; [exact DoubleFacts.run_nearby_sunward |].
  split; [reflexivity |]. split; [reflexivity |].
  apply (C3_output_sorted_by_separation
           [2; 0]%nat w0 _ [sunward; nearby] 0 sunward nearby
           DoubleFacts.run_nearby_sunward); reflexivity.
Defined.

Lemma C4_at_most_five_candidates_witness :
  find_smarter_every_days_satellite [2; 0]%nat w0
  = (Return [sunward; nearby],
     printed w0 (LineLoaded 2 :: report sunward ++ report nearby)) /\
  (List.length [sunward; nearby] <= 5)%nat.
Proof.
  split; [exact DoubleFacts.run_nearby_sunward |].
  exact (proj1 (proj2 C4_at_most_five_candidates
                  [2; 0]%nat w0 _ [sunward; nearby]
                  DoubleFacts.run_nearby_sunward)).
Defined.

(** C8, as the specification words it, does not hold: the objects at
    addresses 0 and 1 have the same separation, and the batch [0; 1] and
    its permutation [1; 0] are ranked in different orders. *)
Lemma C8_tied_candidates_follow_the_input_order :
  Permutation [0; 1]%nat [1; 0]%nat /\
  find_smarter_every_days_satellite [0; 1]%nat w0
  <> find_smarter_every_days_satellite [1; 0]%nat w0.
Proof.
  split; [apply perm_swap |].
  rewrite DoubleFacts.run_sunward_twin, DoubleFacts.run_twin_sunward.
  intros H. apply DoubleFacts.sunward_is_not_twin. congruence.
Qed.

Lemma C8_permutation_with_distinct_separations_witness :
  Permutation [2; 0]%nat [0; 2]%nat /\
  load_sats [2; 0]%nat w0
  = (Return [model "NEARBY"; model "SUNWARD"], w0) /\
  collect_candidates [model "NEARBY"; model "SUNWARD"] [] w0
  = (Return [nearby; sunward], w0) /\
  NoDup (map sep [nearby; sunward]) /\
  find_smarter_every_days_satellite [0; 2]%nat w0
  = find_smarter_every_days_satellite [2; 0]%nat w0.
Proof.
  split; [apply perm_swap |].
  split; [exact DoubleFacts.load_nearby_sunward |].
  split; [exact DoubleFacts.collect_nearby_sunward |].
  split; [exact DoubleFacts.distinct_nearby_sunward |].
  apply (C8_permutation_with_distinct_separations
           [2; 0]%nat [0; 2]%nat w0 w0 w0
           [model "NEARBY"; model "SUNWARD"] [nearby; sunward]).
  - apply perm_swap.
  - exact DoubleFacts.load_nearby_sunward.
  - exact DoubleFacts.collect_nearby_sunward.
  - exact DoubleFacts.distinct_nearby_sunward.
Defined.

Lemma C10_ties_keep_input_order_witness :
  find_smarter_every_days_satellite [0; 1]%nat w0
  = (Return [sunward; twin],
     printed w0 (LineLoaded 2 :: report sunward ++ report twin)) /\
  before sunward twin [sunward; twin] /\
  sep sunward = sep twin /\
  exists l1 l2,
    before l1 l2 [0; 1]%nat /\
    from_omm (heap w0 l1) = Return (sat sunward) /\
    from_omm (heap w0 l2) = Return (sat twin).
Proof.
  split; [exact DoubleFacts.run_sunward_twin |].
  split; [now exists [], [], [] |]. split; [reflexivity |].
  apply (C10_ties_keep_input_order
           [0; 1]%nat w0 _ [sunward; twin] sunward twin
           DoubleFacts.run_sunward_twin).
  - now exists [], [], [].
  - reflexivity.
Defined.

(** * Further properties of the code *)

(** ** [angular_separation] beyond the claims *)

Section SeparationGeometry.


Lemma degrees_radians (x : R) : Numpy.degrees (Numpy.radians x) = x.
Proof.
  unfold Numpy.radians, Numpy.degrees. pose proof PI_RGT_0. field. lra.
Qed.


(** X1: the separation of a direction from itself is exactly 0, for every
    direction, and the haversine term is 0 there. *)
Theorem X1_separation_of_a_direction_from_itself (alt0 az0 : R) :
  haversine_a alt0 az0 alt0 az0 = 0 /\
  angular_separation alt0 az0 alt0 az0 = 0.
Proof. split; [apply coincident_a | apply coincident_separation]. Qed.













End SeparationGeometry.

(** ** The ranking routine beyond the claims *)

Section RankingFurther.

Context `{SF : Skyfield}.

Lemma StronglySorted_app_le {A : Type} (R : A -> A -> Prop)
    (l1 l2 : list A) (x y : A) :
  StronglySorted R (l1 ++ l2) -> In x l1 -> In y l2 -> R x y.
Proof.
  induction l1 as [| a l1 IH]; simpl; intros Hs Hx Hy; [easy |].
  inversion Hs as [| ? ? Hs' Ha]; subst. destruct Hx as [-> | Hx].
  - rewrite Forall_forall in Ha. apply Ha, in_or_app. now right.
  - now apply IH.
Qed.

Lemma candidates_at_kept (w : world) (l : loc) (s : EarthSatellite)
    (a z : Angle) (d : Distance) :
  from_omm (heap w l) = Return s ->
  altaz s JACKSON FIRST_OBJECT = Return (a, z, d) ->
  degrees a > 0 -> km d < 10000 ->
  candidates_at w l
  = [{| sep := angular_separation SUN_ALT SUN_AZ (degrees a) (degrees z);
        sat := s; alt := a; az := z; distance := d |}].
Proof.
  intros Hs Ho Ha Hd. unfold candidates_at. rewrite Hs.
  unfold selected. rewrite Ho. unfold Rgtb.
  rewrite (proj2 (Rltb_true 0 (degrees a))) by lra.
  now rewrite (proj2 (Rltb_true (km d) 10000)) by lra.
Qed.

Lemma candidates_at_discarded (w : world) (l : loc) (s : EarthSatellite)
    (a z : Angle) (d : Distance) :
  from_omm (heap w l) = Return s ->
  altaz s JACKSON FIRST_OBJECT = Return (a, z, d) ->
  degrees a <= 0 \/ 10000 <= km d ->
  candidates_at w l = [].
Proof.
  intros Hs Ho Hout. unfold candidates_at. rewrite Hs.
  unfold selected. rewrite Ho. unfold Rgtb.
  destruct Hout as [Ha | Hd].
  - now rewrite (proj2 (Rltb_false 0 (degrees a))) by lra.
  - rewrite (proj2 (Rltb_false (km d) 10000)) by lra.
    now rewrite andb_false_r.
Qed.

(** X8: the returned candidates are the nearest ones.  A record whose
    satellite is observed above the horizon and within 10,000 km is
    either returned, or five candidates are returned and each of them is
    at least as close to the sun as it is. *)
Theorem X8_returned_candidates_are_the_nearest
    (gp_data : list loc) (w w' : world) (out : list Candidate)
    (l : loc) (s : EarthSatellite) (a z : Angle) (d : Distance) :
  find_smarter_every_days_satellite gp_data w = (Return out, w') ->
  In l gp_data ->
  from_omm (heap w l) = Return s ->
  altaz s JACKSON FIRST_OBJECT = Return (a, z, d) ->
  degrees a > 0 -> km d < 10000 ->
  let c := {| sep := angular_separation SUN_ALT SUN_AZ
                       (degrees a) (degrees z);
              sat := s; alt := a; az := z; distance := d |} in
  In c out \/
  (List.length out = 5%nat /\ forall c', In c' out -> sep c' <= sep c).
Proof.
  intros Hrun Hl Hs Ho Ha Hd c.
  apply find_returns in Hrun as (_ & -> & _).
  set (sorted := list_sort sep (flat_map (candidates_at w) gp_data)).
  assert (Hin : In c sorted).
  { apply (Permutation_in _ (Permutation_sym (list_sort_perm sep _))).
    apply in_flat_map. exists l. split; [assumption |].
    rewrite (candidates_at_kept w l s a z d) by assumption. now left. }
  rewrite <- (firstn_skipn 5 sorted) in Hin.
  apply in_app_or in Hin as [Hin | Hin]; [now left | right].
  assert (Hlen : (5 < List.length sorted)%nat).
  { destruct (Nat.lt_ge_cases 5 (List.length sorted)) as [H | H];
      [assumption |].
    rewrite skipn_all2 in Hin by assumption. destruct Hin. }
  split.
  - rewrite length_firstn. lia.
  - intros c' Hc'.
    apply (StronglySorted_app_le (key_le sep)
             (firstn 5 sorted) (skipn 5 sorted)); try assumption.
    rewrite firstn_skipn. apply list_sort_sorted.
Qed.

(** X9: every separation the routine returns lies between 0 and 180
    degrees. *)
Theorem X9_returned_separations_are_angles
    (gp_data : list loc) (w w' : world) (out : list Candidate)
    (c : Candidate) :
  find_smarter_every_days_satellite gp_data w = (Return out, w') ->
  In c out -> 0 <= sep c <= 180.
Proof.
  intros Hrun Hin.
  destruct (returned_candidate _ _ _ _ _ Hrun Hin) as (l & _ & Hl).
  apply candidates_at_spec in Hl as [_ Hs].
  apply selected_spec in Hs as (_ & _ & _ & _ & ->).
  apply angular_separation_range.
Qed.

(** X10: a run that returns has printed, after what was on standard
    output before, the number of input records and then six lines for
    each returned candidate in rank order: satellite, separation,
    altitude, azimuth, distance and a separator. *)
Theorem X10_what_a_successful_run_prints
    (gp_data : list loc) (w w' : world) (out : list Candidate) :
  find_smarter_every_days_satellite gp_data w = (Return out, w') ->
  stdout w'
  = stdout w
    ++ LineLoaded (List.length gp_data)
       :: flat_map
            (fun c =>
               [LineSatellite (sat c); LineSeparation (sep c);
                LineAltitude (degrees (alt c));
                LineAzimuth (degrees (az c));
                LineDistance (km (distance c)); LineDashes]) out.
Proof.
  intros Hrun. apply find_returns in Hrun as (_ & _ & ->). reflexivity.
Qed.

Lemma load_sats_first_failure (pre post : list loc) (l : loc)
    (w : world) (e : exception) :
  (forall l', In l' pre -> exists s, from_omm (heap w l') = Return s) ->
  from_omm (heap w l) = Raise e ->
  load_sats (pre ++ l :: post) w = (Raise e, w).
Proof.
  intros Hpre He. induction pre as [| p pre IH].
  - unfold load_sats. simpl. unfold bind, deref, lift. simpl.
    now rewrite He.
  - destruct (Hpre p (or_introl eq_refl)) as [s Hs].
    assert (IH' := IH (fun l' H => Hpre l' (or_intror H))).
    unfold load_sats in *. simpl. unfold bind, deref, lift. simpl.
    rewrite Hs. unfold bind, deref, lift in IH'. simpl in IH'.
    now rewrite IH'.
Qed.

(** X11: when a record fails to construct and all records before it
    construct, the routine raises that record's exception and has
    printed nothing. *)
Theorem X11_first_construction_failure_is_raised
    (pre post : list loc) (l : loc) (w : world) (e : exception) :
  (forall l', In l' pre -> exists s, from_omm (heap w l') = Return s) ->
  from_omm (heap w l) = Raise e ->
  find_smarter_every_days_satellite (pre ++ l :: post) w = (Raise e, w).
Proof.
  intros Hpre He. rewrite find_unfold.
  now rewrite (load_sats_first_failure pre post l w e Hpre He).
Qed.

Lemma collect_first_failure (pre post : list EarthSatellite)
    (s : EarthSatellite) (candidates : list Candidate) (w : world)
    (e : exception) :
  (forall s', In s' pre ->
     exists t, altaz s' JACKSON FIRST_OBJECT = Return t) ->
  altaz s JACKSON FIRST_OBJECT = Raise e ->
  collect_candidates (pre ++ s :: post) candidates w = (Raise e, w).
Proof.
  intros Hpre He. revert candidates.
  induction pre as [| p pre IH]; intros acc.
  - simpl. unfold bind, lift. now rewrite He.
  - destruct (Hpre p (or_introl eq_refl)) as [[[a z] d] Ht].
    simpl. unfold bind, lift. rewrite Ht.
    destruct (Rgtb (degrees a) 0 && Rltb (km d) 10000);
      apply IH; intros s' H; apply Hpre; now right.
Qed.

(** X12: when every record constructs and a satellite then fails to
    evaluate while all satellites before it evaluate, the routine raises
    that satellite's exception, having printed only the line with the
    number of records. *)
Theorem X12_first_evaluation_failure_is_raised
    (gp_data : list loc) (w w1 : world)
    (pre post : list EarthSatellite) (s : EarthSatellite) (e : exception) :
  load_sats gp_data w = (Return (pre ++ s :: post), w1) ->
  (forall s', In s' pre ->
     exists t, altaz s' JACKSON FIRST_OBJECT = Return t) ->
  altaz s JACKSON FIRST_OBJECT = Raise e ->
  find_smarter_every_days_satellite gp_data w
  = (Raise e,
     {| heap := heap w;
        stdout := stdout w ++ [LineLoaded (List.length gp_data)] |}).
Proof.
  intros Hl Hpre He. rewrite find_unfold, Hl.
  apply load_sats_returns in Hl as [-> H2].
  rewrite (collect_first_failure pre post s [] _ e Hpre He).
  unfold printed. now rewrite (constructs_length _ _ _ H2).
Qed.

(** X13: a record whose satellite is observed at or below the horizon, or
    at 10,000 km or farther, has no influence on the ranking: without it
    the routine returns the same candidates. *)
Theorem X13_discarded_records_do_not_affect_the_ranking
    (pre post : list loc) (l : loc) (w w' : world)
    (out : list Candidate) (s : EarthSatellite) (a z : Angle)
    (d : Distance) :
  find_smarter_every_days_satellite (pre ++ l :: post) w
  = (Return out, w') ->
  from_omm (heap w l) = Return s ->
  altaz s JACKSON FIRST_OBJECT = Return (a, z, d) ->
  degrees a <= 0 \/ 10000 <= km d ->
  fst (find_smarter_every_days_satellite (pre ++ post) w) = Return out.
Proof.
  intros Hrun Hs Ho Hout. apply find_returns in Hrun as (Hf & -> & _).
  assert (Hf' : Forall (evaluates w) (pre ++ post)).
  { rewrite Forall_app in *. destruct Hf as [H1 H2].
    inversion H2; subst. now split. }
  rewrite flat_map_app. simpl.
  rewrite (candidates_at_discarded w l s a z d Hs Ho Hout). simpl.
  rewrite <- flat_map_app.
  erewrite (proj2 (find_returns (pre ++ post) w _ _));
    [reflexivity | auto].
Qed.

End RankingFurther.

(** ** [process_tle_with_skyfield] *)

Module TleFacts.

Import Tle.

Section ProcessFacts.

Context `{SD : SatData}.

Lemma for_each_sat_handled (sat_data : list sat)
    (processed : list satellite_info) (out : list line) :
  Forall handled sat_data ->
  for_each_sat sat_data processed out
  = (Return (processed ++ flat_map info_of sat_data),
     out ++ flat_map error_of sat_data).
Proof.
  intros H. revert processed out.
  induction H as [| s rest Hs _ IH]; intros processed out.
  - simpl. now rewrite !app_nil_r.
  - simpl. unfold info_of, error_of.
    destruct (try_body s) as [i | e] eqn:E.
    + rewrite IH, <- app_assoc. reflexivity.
    + destruct Hs as [[i Hi] | [n Hn]]; [congruence |].
      rewrite Hn, IH, <- app_assoc. reflexivity.
Qed.

Lemma info_error_length (s : sat) :
  handled s ->
  (List.length (info_of s) + List.length (error_of s) = 1)%nat.
Proof.
  unfold handled, info_of, error_of. intros [[i Hi] | [n Hn]].
  - now rewrite Hi.
  - rewrite Hn. now destruct (try_body s).
Qed.

(** X20: a failing element does not stop the batch.  When the handler's
    [sat.get] succeeds on every element whose [try] body raises, the
    routine returns; the returned list holds, in input order, the dict of
    each element whose body succeeded; standard output gains
    "processing" and, in input order, one error line for each element
    whose body raised; every element is accounted for exactly once. *)
Theorem X20_a_failing_element_is_logged_and_skipped
    (sat_data : list sat) (out : list line) :
  Forall handled sat_data ->
  process_tle_with_skyfield sat_data out
  = (Return (flat_map info_of sat_data),
     out ++ Processing :: flat_map error_of sat_data) /\
  (List.length (flat_map info_of sat_data)
   + List.length (flat_map error_of sat_data)
   = List.length sat_data)%nat.
Proof.
  intros H. split.
  - unfold process_tle_with_skyfield.
    rewrite (for_each_sat_handled _ _ _ H), <- app_assoc. reflexivity.
  - induction H as [| s rest Hs _ IH]; [reflexivity |].
    simpl. rewrite !length_app. pose proof (info_error_length s Hs). lia.
Qed.

(** X21: an exception raised inside the handler is not caught.  When
    every element before [s] is dealt with, the body of [s] raises and
    [sat.get] raises [e'] on [s], the routine raises [e']: the elements
    after [s] are not processed and what was collected is lost. *)
Theorem X21_an_exception_in_the_handler_leaves_the_routine
    (pre post : list sat) (s : sat) (e' : exception) (out : list line) :
  Forall handled pre ->
  handler_raises s e' ->
  process_tle_with_skyfield (pre ++ s :: post) out
  = (Raise e', out ++ Processing :: flat_map error_of pre).
Proof.
  intros Hpre [[e He] Hg]. unfold process_tle_with_skyfield.
  generalize (@nil satellite_info) as processed.
  replace (out ++ Processing :: flat_map error_of pre)
    with ((out ++ [Processing]) ++ flat_map error_of pre)
    by now rewrite <- app_assoc.
  generalize (out ++ [Processing]) as o.
  induction Hpre as [| p pre Hp _ IH]; intros o processed.
  - simpl. rewrite He, Hg. now rewrite app_nil_r.
  - simpl. unfold error_of at 1.
    destruct (try_body p) as [i | ep] eqn:E.
    + now rewrite IH.
    + destruct Hp as [[i Hi] | [n Hn]]; [congruence |].
      rewrite Hn, IH, <- app_assoc. reflexivity.
Qed.

End ProcessFacts.

End TleFacts.

(** ** The acquisition script *)

Module Acquisition.

Import SpaceTrack.

Section ScriptFacts.

Context `{RQ : Requests}.

Ltac run_script :=
  unfold main, authenticate_space_track, get_space_track_data, try_except,
    bind, ret, raise, lift, print, outward, os_getenv, py_load_dotenv;
  cbn [out_there calls stdout fst snd].

Lemma after_nil (w : world) (o : outside) :
  after w o [] [] = {| out_there := o; calls := calls w; stdout := stdout w |}.
Proof. unfold after. now rewrite !app_nil_r. Qed.

(** X14: when either credential is missing from the environment, [main]
    stops with an [AssertionError] right after announcing the
    authentication: no request goes out and no file is written. *)
Theorem X14_missing_credentials_stop_the_script (w : world) :
  fst (credentials w) = None \/ snd (credentials w) = None ->
  exists msg,
    main w
    = (Raised (AssertionError msg),
       after w (load_dotenv (out_there w)) []
         [Text "Authenticating with space-track.org."]).
Proof.
  unfold credentials, after. cbn [fst snd]. intros H. run_script.
  rewrite app_nil_r.
  destruct (getenv "SPACETRACK_USERNAME" (load_dotenv (out_there w)))
    as [u |]; [| eexists; reflexivity].
  destruct (getenv "SPACETRACK_PASSWORD" (load_dotenv (out_there w)))
    as [p |]; [| eexists; reflexivity].
  destruct H; discriminate.
Qed.

Ltac use_credentials Hu Hp :=
  unfold credentials in Hu, Hp; cbn [fst snd] in Hu, Hp;
  run_script; rewrite Hu, Hp; cbn [out_there calls stdout].

(** X15: when the credentials are present and the login request is
    refused with a [RequestException], [authenticate_space_track] returns
    [None] and [main] goes on to [get_space_track_data], whose assertion
    on the session fails: the script ends with an [AssertionError], it
    sends no query, writes no file and does not print the "Data requet
    failed" message. *)
Theorem X15_refused_login_ends_in_an_assertion_error
    (w : world) (username password e : string) (o1 : outside) :
  credentials w = (Some username, Some password) ->
  login_refused username password (load_dotenv (out_there w)) o1 e ->
  main w
  = (Raised (AssertionError ""),
     after w o1 [Post LOGIN_URL (login_form username password)]
       [Text "Authenticating with space-track.org.";
        ErrorLoggingIn e;
        Text "Retrieving space-track.org data."]).
Proof.
  intros Hc Hl. injection Hc as Hu Hp. unfold login_refused, login_form in Hl.
  unfold after, login_form. run_script. rewrite Hu, Hp.
  cbn [out_there calls stdout].
  destruct Hl as [Hl | (r & Hl & Hs)]; rewrite Hl; [| rewrite Hs];
    cbn [out_there calls stdout]; now rewrite <- !app_assoc.
Qed.

(** X16: when the login goes through and the query is refused with a
    [RequestException] (by [session.get], by [raise_for_status] or by
    [response.json]), [main] returns normally after printing the error
    and the "Data requet failed" message, and writes no file. *)
Theorem X16_refused_query_is_reported
    (w : world) (username password e : string) (o1 o2 : outside) :
  credentials w = (Some username, Some password) ->
  login_accepted username password (load_dotenv (out_there w)) o1 ->
  query_refused (full_query_url search_params) o1 o2 e ->
  main w
  = (Done tt,
     after w o2
       [Post LOGIN_URL (login_form username password);
        Get (full_query_url search_params)]
       [Text "Authenticating with space-track.org.";
        Text "Successfully authenticated.";
        Text "Retrieving space-track.org data.";
        Text ("Getting " ++ full_query_url search_params ++ ".");
        ErrorRetrieving e;
        Text "Data requet failed. Please try again."]).
Proof.
  intros Hc (r & Hl & Hs) Hq. injection Hc as Hu Hp.
  unfold login_form in Hl. unfold after, login_form. run_script.
  rewrite Hu, Hp. cbn [out_there calls stdout]. rewrite Hl, Hs.
  cbn [out_there calls stdout List.length search_params Nat.eqb].
  destruct Hq as [Hq | [(r' & Hq & Hs') | (r' & Hq & Hs' & Hj)]];
    rewrite Hq; [| rewrite Hs' | rewrite Hs', Hj];
    cbn [out_there calls stdout]; now rewrite <- !app_assoc.
Qed.

(** X17: when the login goes through and the query is answered with
    JSON that has a length (a string, a list or a dict), [main] prints
    that length and hands exactly this data to the file
    [satellite_data.json]; the requests sent are one POST to the login
    URL followed by one GET of the query URL. *)
Theorem X17_answered_query_is_saved
    (w : world) (username password : string) (o1 o2 : outside)
    (data : json) (n : nat) :
  credentials w = (Some username, Some password) ->
  login_accepted username password (load_dotenv (out_there w)) o1 ->
  query_answered (full_query_url search_params) o1 o2 data ->
  len data = Done n ->
  main w
  = (fst (dump_to_file "satellite_data.json" data o2),
     after w (snd (dump_to_file "satellite_data.json" data o2))
       [Post LOGIN_URL (login_form username password);
        Get (full_query_url search_params);
        Dump "satellite_data.json" data]
       [Text "Authenticating with space-track.org.";
        Text "Successfully authenticated.";
        Text "Retrieving space-track.org data.";
        Text ("Getting " ++ full_query_url search_params ++ ".");
        ReceivedLength n]).
Proof.
  intros Hc (r & Hl & Hs) (r' & Hq & Hs' & Hj) Hn. injection Hc as Hu Hp.
  unfold login_form in Hl. unfold after, login_form. run_script.
  rewrite Hu, Hp. cbn [out_there calls stdout]. rewrite Hl, Hs.
  cbn [out_there calls stdout List.length search_params Nat.eqb].
  rewrite Hq, Hs', Hj, Hn. cbn [out_there calls stdout].
  destruct data; try discriminate Hn; cbn [out_there calls stdout];
    match goal with
    | |- context [dump_to_file ?name ?d ?o] =>
        destruct (dump_to_file name d o) as [res o3]
    end;
    cbn [out_there calls stdout fst snd]; now rewrite <- !app_assoc.
Qed.

(** X18: when the query is answered with JSON [null], a boolean or a
    number, [len] raises a [TypeError] that no handler catches: [main]
    ends with it and writes no file. *)
Theorem X18_unsized_answer_raises_a_type_error
    (w : world) (username password : string) (o1 o2 : outside)
    (data : json) :
  credentials w = (Some username, Some password) ->
  login_accepted username password (load_dotenv (out_there w)) o1 ->
  query_answered (full_query_url search_params) o1 o2 data ->
  len data = Raised TypeError ->
  main w
  = (Raised TypeError,
     after w o2
       [Post LOGIN_URL (login_form username password);
        Get (full_query_url search_params)]
       [Text "Authenticating with space-track.org.";
        Text "Successfully authenticated.";
        Text "Retrieving space-track.org data.";
        Text ("Getting " ++ full_query_url search_params ++ ".")]).
Proof.
  intros Hc (r & Hl & Hs) (r' & Hq & Hs' & Hj) Hn. injection Hc as Hu Hp.
  unfold login_form in Hl. unfold after, login_form. run_script.
  rewrite Hu, Hp. cbn [out_there calls stdout]. rewrite Hl, Hs.
  cbn [out_there calls stdout List.length search_params Nat.eqb].
  rewrite Hq, Hs', Hj, Hn. cbn [out_there calls stdout].
  now rewrite <- !app_assoc.
Qed.

Ltac split_cases :=
  repeat match goal with
         | |- context [match ?x with _ => _ end] =>
             lazymatch x with
             | context [match _ with _ => _ end] => fail
             | _ => destruct x eqn:?
             end;
             cbn [out_there calls stdout fst snd List.length Nat.eqb]
         end.

Ltac no_call := exists []; split; [now rewrite app_nil_r | now left].

Ltac some_calls :=
  eexists; split;
  [ rewrite <- ?app_assoc; reflexivity
  | right; do 2 eexists; split; [reflexivity |];
    first [ left; reflexivity
          | right; left; reflexivity
          | right; right; do 2 eexists; split; [eassumption | reflexivity] ] ].

(** X19: whatever the environment and the remote service do, the calls
    [main] sends out are, in this order, at most one POST of the
    credentials to the login URL, at most one GET of the query URL, and
    at most one write of [satellite_data.json]; the data written is JSON
    that has a length.  In particular the credentials go nowhere but to
    the login URL, and nothing is written unless the query was sent. *)
Theorem X19_the_calls_the_script_can_make (w : world) :
  exists new,
    calls (snd (main w)) = calls w ++ new /\
    (new = [] \/
     exists username password,
       credentials w = (Some username, Some password) /\
       (new = [Post LOGIN_URL (login_form username password)] \/
        new = [Post LOGIN_URL (login_form username password);
               Get (full_query_url search_params)] \/
        exists data n,
          len data = Done n /\
          new = [Post LOGIN_URL (login_form username password);
                 Get (full_query_url search_params);
                 Dump "satellite_data.json" data])).
Proof.
  unfold credentials, login_form. run_script.
  destruct (getenv "SPACETRACK_USERNAME" (load_dotenv (out_there w)))
    as [u |]; [| no_call].
  destruct (getenv "SPACETRACK_PASSWORD" (load_dotenv (out_there w)))
    as [p |]; [| no_call].
  cbn [out_there calls stdout fst snd List.length Nat.eqb].
  split_cases; some_calls.
Qed.


End ScriptFacts.

End Acquisition.

(** ** The query URL *)

Module QueryUrl.

Import Stdlib.Strings.Ascii.
Import SpaceTrack.

Local Open Scope string_scope.









(** X23: nothing in the URL is escaped: a ["/"] inside a key or a value
    cannot be told from the separator, and different parameter lists can
    give the same URL. *)
Theorem X23_a_slash_in_a_parameter_is_not_escaped :
  exists ps qs : list (string * string),
    ps <> qs /\ full_query_url ps = full_query_url qs.
Proof.
  exists [("a/b", "c")], [("a", "b/c")]. split; [discriminate | reflexivity].
Qed.

End QueryUrl.

(** ** The further properties on concrete inputs *)

Module RankingWitnesses.

Import Double.

Lemma X8_returned_candidates_are_the_nearest_witness :
  find_smarter_every_days_satellite [3; 2; 4]%nat w0
  = (Return [nearby], printed w0 (LineLoaded 3 :: report nearby)) /\
  In 2%nat [3; 2; 4]%nat /\
  from_omm (heap w0 2%nat) = Return (model "NEARBY") /\
  altaz (model "NEARBY") JACKSON FIRST_OBJECT
  = Return ({| degrees := 55 |}, {| degrees := 207 |}, {| km := 500 |}) /\
  (55 > 0 /\ 500 < 10000) /\
  (In nearby [nearby] \/
   (List.length [nearby] = 5%nat /\
    forall c', In c' [nearby] -> sep c' <= sep nearby)).
Proof.
  split; [exact DoubleFacts.run_with_discards |].
  split; [right; now left |]. split; [reflexivity |].
  split; [reflexivity |]. split; [lra |].
  apply (X8_returned_candidates_are_the_nearest
           [3; 2; 4]%nat w0 _ [nearby] 2%nat (model "NEARBY")
           {| degrees := 55 |} {| degrees := 207 |} {| km := 500 |}
           DoubleFacts.run_with_discards);
    try reflexivity; [right; now left | simpl; lra | simpl; lra].
Defined.

Lemma X9_returned_separations_are_angles_witness :
  find_smarter_every_days_satellite [2; 0]%nat w0
  = (Return [sunward; nearby],
     printed w0 (LineLoaded 2 :: report sunward ++ report nearby)) /\
  In nearby [sunward; nearby] /\
  0 <= sep nearby <= 180.
Proof.
  split; [exact DoubleFacts.run_nearby_sunward |].
  split; [right; now left |].
  apply (X9_returned_separations_are_angles
           [2; 0]%nat w0 _ [sunward; nearby] nearby
           DoubleFacts.run_nearby_sunward).
  right; now left.
Defined.

Lemma X10_what_a_successful_run_prints_witness :
  find_smarter_every_days_satellite [3; 2; 4]%nat w0
  = (Return [nearby], printed w0 (LineLoaded 3 :: report nearby)) /\
  stdout (printed w0 (LineLoaded 3 :: report nearby))
  = stdout w0
    ++ LineLoaded 3
       :: [LineSatellite (sat nearby); LineSeparation (sep nearby);
           LineAltitude (degrees (alt nearby));
           LineAzimuth (degrees (az nearby));
           LineDistance (km (distance nearby)); LineDashes].
Proof.
  split; [exact DoubleFacts.run_with_discards |].
  exact (X10_what_a_successful_run_prints
           [3; 2; 4]%nat w0 _ [nearby] DoubleFacts.run_with_discards).
Defined.

Lemma X11_first_construction_failure_is_raised_witness :
  (forall l', In l' [2]%nat -> exists s, from_omm (heap w0 l') = Return s) /\
  from_omm (heap w0 5%nat) = Raise (KeyError "OBJECT_NAME") /\
  find_smarter_every_days_satellite ([2] ++ 5 :: [0])%nat w0
  = (Raise (KeyError "OBJECT_NAME"), w0).
Proof.
  assert (H : forall l', In l' [2]%nat ->
                         exists s, from_omm (heap w0 l') = Return s).
  { intros l' [<- | []]. eexists. reflexivity. }
  split; [exact H |]. split; [reflexivity |].
  exact (X11_first_construction_failure_is_raised
           [2]%nat [0]%nat 5%nat w0 (KeyError "OBJECT_NAME") H eq_refl).
Defined.

Lemma X12_first_evaluation_failure_is_raised_witness :
  load_sats [2; 6]%nat Lost.w_lost
  = (Return ([model "NEARBY"] ++ model "LOST" :: []), Lost.w_lost) /\
  (forall s', In s' [model "NEARBY"] ->
     exists t, altaz s' JACKSON FIRST_OBJECT = Return t) /\
  altaz (model "LOST") JACKSON FIRST_OBJECT
  = Raise (ValueError "no ephemeris") /\
  find_smarter_every_days_satellite [2; 6]%nat Lost.w_lost
  = (Raise (ValueError "no ephemeris"),
     {| heap := heap Lost.w_lost;
        stdout := stdout Lost.w_lost ++ [LineLoaded 2] |}).
Proof.
  assert (H : forall s', In s' [model "NEARBY"] ->
                exists t, altaz s' JACKSON FIRST_OBJECT = Return t).
  { intros s' [<- | []]. eexists. reflexivity. }
  split; [reflexivity |]. split; [exact H |]. split; [reflexivity |].
  exact (X12_first_evaluation_failure_is_raised
           [2; 6]%nat Lost.w_lost Lost.w_lost
           [model "NEARBY"] [] (model "LOST")
           (ValueError "no ephemeris") eq_refl H eq_refl).
Defined.

Lemma X13_discarded_records_do_not_affect_the_ranking_witness :
  find_smarter_every_days_satellite ([] ++ 3 :: [2; 4])%nat w0
  = (Return [nearby], printed w0 (LineLoaded 3 :: report nearby)) /\
  from_omm (heap w0 3%nat) = Return (model "BELOW") /\
  altaz (model "BELOW") JACKSON FIRST_OBJECT
  = Return ({| degrees := -5 |}, {| degrees := 209.2 |}, {| km := 400 |}) /\
  (-5 <= 0 \/ 10000 <= 400) /\
  fst (find_smarter_every_days_satellite ([] ++ [2; 4])%nat w0)
  = Return [nearby].
Proof.
  split; [exact DoubleFacts.run_with_discards |].
  split; [reflexivity |]. split; [reflexivity |]. split; [left; lra |].
  apply (X13_discarded_records_do_not_affect_the_ranking
           [] [2; 4]%nat 3%nat w0 _ [nearby] (model "BELOW")
           {| degrees := -5 |} {| degrees := 209.2 |} {| km := 400 |}
           DoubleFacts.run_with_discards); try reflexivity.
  left. simpl. lra.
Defined.

End RankingWitnesses.

Module TleWitnesses.

Import Tle TleStub.

Lemma sound_handled : handled sound.
Proof. left. eexists. reflexivity. Qed.

Lemma decayed_handled : handled decayed.
Proof. right. eexists. reflexivity. Qed.

Lemma X20_a_failing_element_is_logged_and_skipped_witness :
  Forall handled [sound; decayed; sound] /\
  process_tle_with_skyfield [sound; decayed; sound] []
  = (Return (flat_map info_of [sound; decayed; sound]),
     [] ++ Processing :: flat_map error_of [sound; decayed; sound]) /\
  (List.length (flat_map info_of [sound; decayed; sound])
   + List.length (flat_map error_of [sound; decayed; sound])
   = List.length [sound; decayed; sound])%nat.
Proof.
  assert (H : Forall handled [sound; decayed; sound]).
  { apply Forall_cons; [exact sound_handled |].
    apply Forall_cons; [exact decayed_handled |].
    apply Forall_cons; [exact sound_handled | apply Forall_nil]. }
  split; [exact H |].
  exact (TleFacts.X20_a_failing_element_is_logged_and_skipped
           [sound; decayed; sound] [] H).
Defined.

Lemma X21_an_exception_in_the_handler_leaves_the_routine_witness :
  Forall handled [sound; decayed] /\
  handler_raises opaque (ValueError "no attribute get") /\
  process_tle_with_skyfield ([sound; decayed] ++ opaque :: [sound]) []
  = (Raise (ValueError "no attribute get"),
     [] ++ Processing :: flat_map error_of [sound; decayed]).
Proof.
  assert (H : Forall handled [sound; decayed]).
  { apply Forall_cons; [exact sound_handled |].
    apply Forall_cons; [exact decayed_handled | apply Forall_nil]. }
  assert (Hr : handler_raises opaque (ValueError "no attribute get")).
  { split; [eexists |]; reflexivity. }
  split; [exact H |]. split; [exact Hr |].
  exact (TleFacts.X21_an_exception_in_the_handler_leaves_the_routine
           [sound; decayed] [sound] opaque _ [] H Hr).
Defined.

End TleWitnesses.

Module ScriptWitnesses.

Import SpaceTrack Stub.

Lemma X14_missing_credentials_stop_the_script_witness :
  (fst (credentials (start (service_with [] 200 200 one_record))) = None \/
   snd (credentials (start (service_with [] 200 200 one_record))) = None) /\
  exists msg,
    main (start (service_with [] 200 200 one_record))
    = (Raised (AssertionError msg),
       after (start (service_with [] 200 200 one_record))
         (load_dotenv (out_there (start (service_with [] 200 200 one_record))))
         [] [Text "Authenticating with space-track.org."]).
Proof.
  split; [now left |].
  apply (Acquisition.X14_missing_credentials_stop_the_script
           (start (service_with [] 200 200 one_record))).
  now left.
Defined.

Lemma X15_refused_login_ends_in_an_assertion_error_witness :
  credentials (start (service_with account 0 200 one_record))
  = (Some "observer"%string, Some "secret"%string) /\
  login_refused "observer" "secret"
    (load_dotenv (out_there (start (service_with account 0 200 one_record))))
    (service_with account 0 200 one_record) "connection refused" /\
  main (start (service_with account 0 200 one_record))
  = (Raised (AssertionError ""),
     after (start (service_with account 0 200 one_record))
       (service_with account 0 200 one_record)
       [Post LOGIN_URL (login_form "observer" "secret")]
       [Text "Authenticating with space-track.org.";
        ErrorLoggingIn "connection refused";
        Text "Retrieving space-track.org data."]).
Proof.
  assert (Hl : login_refused "observer" "secret"
                 (load_dotenv
                    (out_there
                       (start (service_with account 0 200 one_record))))
                 (service_with account 0 200 one_record)
                 "connection refused") by (left; reflexivity).
  split; [reflexivity |]. split; [exact Hl |].
  exact (Acquisition.X15_refused_login_ends_in_an_assertion_error
           (start (service_with account 0 200 one_record))
           "observer" "secret" "connection refused" _ eq_refl Hl).
Defined.

Lemma login_goes_through (query : nat) (content : json) :
  login_accepted "observer" "secret"
    (load_dotenv
       (out_there (start (service_with account 200 query content))))
    (service_with account 200 query content).
Proof. eexists. split; reflexivity. Qed.

Lemma X16_refused_query_is_reported_witness :
  credentials (start (service_with account 200 503 one_record))
  = (Some "observer"%string, Some "secret"%string) /\
  query_refused (full_query_url search_params)
    (service_with account 200 503 one_record)
    (service_with account 200 503 one_record) "HTTP error" /\
  main (start (service_with account 200 503 one_record))
  = (Done tt,
     after (start (service_with account 200 503 one_record))
       (service_with account 200 503 one_record)
       [Post LOGIN_URL (login_form "observer" "secret");
        Get (full_query_url search_params)]
       [Text "Authenticating with space-track.org.";
        Text "Successfully authenticated.";
        Text "Retrieving space-track.org data.";
        Text ("Getting " ++ full_query_url search_params ++ ".");
        ErrorRetrieving "HTTP error";
        Text "Data requet failed. Please try again."]).
Proof.
  assert (Hq : query_refused (full_query_url search_params)
                 (service_with account 200 503 one_record)
                 (service_with account 200 503 one_record) "HTTP error").
  { right; left. eexists. split; reflexivity. }
  split; [reflexivity |]. split; [exact Hq |].
  exact (Acquisition.X16_refused_query_is_reported
           (start (service_with account 200 503 one_record))
           "observer" "secret" "HTTP error" _ _ eq_refl
           (login_goes_through 503 one_record) Hq).
Defined.

Lemma query_goes_through (content : json) :
  query_answered (full_query_url search_params)
    (service_with account 200 200 content)
    (service_with account 200 200 content) content.
Proof. eexists. repeat split; reflexivity. Qed.

Lemma X17_answered_query_is_saved_witness :
  credentials (start (service_with account 200 200 one_record))
  = (Some "observer"%string, Some "secret"%string) /\
  len one_record = Done 1%nat /\
  main (start (service_with account 200 200 one_record))
  = (fst (dump_to_file "satellite_data.json" one_record
            (service_with account 200 200 one_record)),
     after (start (service_with account 200 200 one_record))
       (snd (dump_to_file "satellite_data.json" one_record
               (service_with account 200 200 one_record)))
       [Post LOGIN_URL (login_form "observer" "secret");
        Get (full_query_url search_params);
        Dump "satellite_data.json" one_record]
       [Text "Authenticating with space-track.org.";
        Text "Successfully authenticated.";
        Text "Retrieving space-track.org data.";
        Text ("Getting " ++ full_query_url search_params ++ ".");
        ReceivedLength 1]).
Proof.
  split; [reflexivity |]. split; [reflexivity |].
  exact (Acquisition.X17_answered_query_is_saved
           (start (service_with account 200 200 one_record))
           "observer" "secret" _ _ one_record 1%nat eq_refl
           (login_goes_through 200 one_record)
           (query_goes_through one_record) eq_refl).
Defined.

Lemma X18_unsized_answer_raises_a_type_error_witness :
  credentials (start (service_with account 200 200 JNull))
  = (Some "observer"%string, Some "secret"%string) /\
  len JNull = Raised TypeError /\
  main (start (service_with account 200 200 JNull))
  = (Raised TypeError,
     after (start (service_with account 200 200 JNull))
       (service_with account 200 200 JNull)
       [Post LOGIN_URL (login_form "observer" "secret");
        Get (full_query_url search_params)]
       [Text "Authenticating with space-track.org.";
        Text "Successfully authenticated.";
        Text "Retrieving space-track.org data.";
        Text ("Getting " ++ full_query_url search_params ++ ".")]).
Proof.
  split; [reflexivity |]. split; [reflexivity |].
  exact (Acquisition.X18_unsized_answer_raises_a_type_error
           (start (service_with account 200 200 JNull))
           "observer" "secret" _ _ JNull eq_refl
           (login_goes_through 200 JNull)
           (query_goes_through JNull) eq_refl).
Defined.



End ScriptWitnesses.
